(** * The transcription pipeline of [main.py] ([Worker.run])

    A shallow embedding of [Worker.run]: the body of the worker thread is a
    computation in a small state-and-exception monad.  The state holds the
    local file system and the trace of everything the run does that is
    visible from outside (the Qt signals it emits and the calls it makes to
    moviepy, Cloud Storage and the Speech API).  The answers of these
    external collaborators are the fields of a record [World]; the run is a
    function of the world, the input path and the initial file system.

    Text is modelled by [string]: a Python [str] as the bytes of its UTF-8
    encoding, so a character outside ASCII takes two to four bytes, all of
    them above 127.  The characters the program searches for and cuts at
    (slash, dot, equals sign, newline) are ASCII, so searching and slicing
    are the same on the bytes as on the characters.  Paths follow
    [posixpath]. *)

From Stdlib Require Import ZArith String Ascii Lia Sorted.
From stdpp Require Import gmap strings list.

Open Scope string_scope.
Open Scope list_scope.

(** ** Python strings *)

Module PyStr.

(** [s[:n]] for [0 <= n]. *)
Fixpoint take (n : nat) (s : string) : string :=
  match n, s with
  | S n', String c s' => String c (take n' s')
  | _, _ => ""
  end.

(** [s[n:]] for [0 <= n]. *)
Fixpoint drop (n : nat) (s : string) : string :=
  match n, s with
  | S n', String _ s' => drop n' s'
  | _, _ => s
  end.

(** [s[:i]] and [s[i:]] at an index that is not negative (the only slices
    the pipeline takes). *)
Definition slice_to (i : Z) (s : string) : string := take (Z.to_nat i) s.
Definition slice_from (i : Z) (s : string) : string := drop (Z.to_nat i) s.

(** [s[i:i+1]]: the character at [i] as a string, empty out of range. *)
Definition slice1 (i : Z) (s : string) : string :=
  take 1 (slice_from i s).

(** [s.rfind(c)] for a single character [c]: the highest index at which
    [c] occurs, [-1] when it does not occur. *)
Fixpoint rfind (c : ascii) (s : string) : Z :=
  match s with
  | "" => -1
  | String a s' =>
      let r := rfind c s' in
      if (0 <=? r)%Z then (r + 1)%Z
      else if Ascii.eqb a c then 0%Z else (-1)%Z
  end.

(** [c in s] for a single character. *)
Fixpoint contains (c : ascii) (s : string) : bool :=
  match s with
  | "" => false
  | String a s' => Ascii.eqb a c || contains c s'
  end.

Definition lower_char (c : ascii) : ascii :=
  let n := nat_of_ascii c in
  if (65 <=? n)%nat && (n <=? 90)%nat then ascii_of_nat (n + 32) else c.

(** [s.isascii()]. *)
Fixpoint is_ascii (s : string) : bool :=
  match s with
  | "" => true
  | String c s' => (nat_of_ascii c <? 128)%nat && is_ascii s'
  end.

(** [s.lower()] on ASCII text: the letters A to Z are folded. *)
Fixpoint lower (s : string) : string :=
  match s with
  | "" => ""
  | String c s' => String (lower_char c) (lower s')
  end.

(** Truth value of a string: [not s] is [True] exactly for the empty one. *)
Definition truthy (s : string) : bool :=
  match s with "" => false | _ => true end.

(** [s.rstrip("/")]. *)
Fixpoint rstrip_slash (s : string) : string :=
  match s with
  | "" => ""
  | String c s' =>
      match rstrip_slash s' with
      | "" => if Ascii.eqb c "/" then "" else String c ""
      | r => String c r
      end
  end.

(** [s == "/" * len(s)]. *)
Fixpoint all_slashes (s : string) : bool :=
  match s with
  | "" => true
  | String c s' => Ascii.eqb c "/" && all_slashes s'
  end.

End PyStr.

(** ** [os.path] (posixpath) *)

Module OsPath.
Import PyStr.

(** The loop of [genericpath._splitext] that skips the leading dots of the
    file name: it runs while [filenameIndex < dotIndex] ([n] iterations are
    left) and answers [true] as soon as a character that is not a dot is
    met, which is where [_splitext] returns the split at [dotIndex]. *)
Fixpoint nondot_before (p : string) (filenameIndex : Z) (n : nat) : bool :=
  match n with
  | O => false
  | S n' =>
      if negb (String.eqb (slice1 filenameIndex p) ".") then true
      else nondot_before p (filenameIndex + 1) n'
  end.

(** [os.path.splitext(p)], with [sep = "/"], no [altsep], [extsep = "."]. *)
Definition splitext (p : string) : string * string :=
  let sepIndex := rfind "/" p in
  let dotIndex := rfind "." p in
  if (sepIndex <? dotIndex)%Z
     && nondot_before p (sepIndex + 1) (Z.to_nat (dotIndex - (sepIndex + 1)))
  then (slice_to dotIndex p, slice_from dotIndex p)
  else (p, "").

(** [os.path.basename(p)]. *)
Definition basename (p : string) : string :=
  let i := (rfind "/" p + 1)%Z in
  slice_from i p.

(** [os.path.dirname(p)]. *)
Definition dirname (p : string) : string :=
  let i := (rfind "/" p + 1)%Z in
  let head := slice_to i p in
  if truthy head && negb (all_slashes head) then rstrip_slash head else head.

End OsPath.

(** ** The regular expression of the output address *)

Module Re.

(** The newline character, the only one [.] does not match. *)
Definition newline : ascii := "010"%char.

(** A literal piece of the pattern: the rest of the subject after it. *)
Fixpoint literal (lit s : string) : option string :=
  match lit, s with
  | "", _ => Some s
  | String a lit', String b s' => if Ascii.eqb a b then literal lit' s' else None
  | String _ _, "" => None
  end.

(** The longest run of characters other than [c] at the head of the
    subject, and what follows it.  It is what a greedy [[^c]*] takes first. *)
Fixpoint span_not (c : ascii) (s : string) : string * string :=
  match s with
  | "" => ("", "")
  | String a s' =>
      if Ascii.eqb a c then ("", s)
      else let '(run, rest) := span_not c s' in (String a run, rest)
  end.

(** [re.match] of the pattern of line 215 at the start of the subject; the
    answer is [m.group(1, 2)].  The pattern has four pieces, matched in
    turn: the literal [gs://]; a first group, one or more characters other
    than a slash, greedy; the literal slash; a second group, any number of
    characters other than a newline, greedy.  No backtracking is needed: the
    character after a shorter run of the first group is not a slash, and
    nothing follows the second group. *)
Definition match_gs_uri (s : string) : option (string * string) :=
  match literal "gs://" s with
  | None => None
  | Some s1 =>
      let '(g1, s2) := span_not "/" s1 in
      match g1 with
      | "" => None
      | _ =>
          match literal "/" s2 with
          | None => None
          | Some s3 => let '(g2, _) := span_not newline s3 in Some (g1, g2)
          end
      end
  end.

End Re.

(** ** Exceptions *)

Inductive exn_class :=
  | ImportError | AttributeError | IndexError | TimeoutError | OtherException.

(** An exception object: its class and [str(e)]. *)
Record exn := Exn { exn_class_of : exn_class; exn_str : string }.

(** What a call into a library gives: a value, or a raised exception. *)
Inductive Exc (A : Type) :=
  | Ok (a : A)
  | Raise (e : exn).
Arguments Ok {A} a.
Arguments Raise {A} e.

(** ** Data of the external services *)

(** A moviepy audio clip: where it was decoded from, and its number of
    channels. *)
Record AudioClip := { clip_source : string; nchannels : Z }.

(** A moviepy video clip; [clip.audio] is [None] for a video without an
    audio track. *)
Record VideoClip := { audio : option AudioClip }.

(** What [write_audiofile] did: the file is complete, or the encoder failed,
    possibly leaving a partial file behind. *)
Inductive WriteOutcome :=
  | Written
  | WriteFailed (e : exn) (partial : bool).

(** The service-account credentials loaded from the JSON key file. *)
Record Credentials := { project_id : string }.

(** [cloud_speech.RecognitionConfig]. *)
Record RecognitionConfig := {
  auto_decoding_config : bool;
  language_codes : list string;
  model : string
}.

(** The request dictionary given to [batch_recognize]. *)
Record BatchRecognizeRequest := {
  recognizer : string;
  config : RecognitionConfig;
  files : list string;
  recognition_output_config : string
}.

(** [BatchRecognizeFileResult]: the [uri] field the pipeline reads, and
    whether any other field of the message is set (a proto-plus message is
    truthy exactly when one of its fields is). *)
Record BatchRecognizeFileResult := { uri : string; other_field_set : bool }.

Definition file_result_truthy (r : BatchRecognizeFileResult) : bool :=
  PyStr.truthy (uri r) || other_field_set r.

(** [BatchRecognizeResponse.results], a map from input URIs. *)
Record BatchRecognizeResponse := {
  results : gmap string BatchRecognizeFileResult
}.

(** The long-running operation returned by [batch_recognize]: the seconds
    after which the remote job is seen in a terminal state by whoever polls
    it ([None] if it never is), and what the terminal job yields (its
    response, or the error the service reports). *)
Record Operation := {
  seconds_to_done : option Z;
  terminal_outcome : Exc BatchRecognizeResponse
}.

(** A segment of the results document ([SpeechRecognitionResult]) with its
    ranked alternatives, each reduced to its [transcript]. *)
Record SpeechRecognitionResult := { alternatives : list string }.

(** ** The local file system and the trace *)

Inductive content :=
  | Wave (fps : Z) (codec : string) (channels : Z)
  | PartialWave
  | Text (encoding : string) (text : string)
  | Other (data : string).

Inductive Event :=
  (* the three Qt signals of the worker *)
  | Progress (n : Z)
  | Finished (msg : string)
  | Error (msg : string)
  (* calls to the external collaborators *)
  | CallWriteAudio (src dst : string) (fps : Z) (codec : string)
      (ffmpeg_params : list string)
  | CallCredentials (path : string)
  | CallUpload (bucket blob filename : string)
  | CallBatchRecognize (request : BatchRecognizeRequest)
  | CallResult (timeout : Z)
  | CallDownload (bucket blob : string)
  (* effects on the local file system *)
  | FileWritten (path : string) (c : content)
  | FileRemoved (path : string).

Record State := { fs : gmap string content; trace : list Event }.

(** ** The world: the answers of everything outside the pipeline *)

Record World := {
  (** [os.environ], as filled from env.txt *)
  environ : gmap string string;
  (** the imports at the head of [run] *)
  imports : Exc unit;
  (** [str.lower] on a text that is not ASCII, by the Unicode tables of the
      runtime *)
  unicode_lower : string -> string;
  (** the other names of the file a path leads to: the file system is keyed
      by the names under which files are known, and the operating system
      resolves a path (working directory, dot segments, links) before it
      looks *)
  same_file : string -> list string;
  VideoFileClip : string -> Exc VideoClip;
  AudioFileClip : string -> Exc AudioClip;
  write_audiofile : AudioClip -> string -> WriteOutcome;
  (** [clip.close()] of the clip opened from a path *)
  clip_close : string -> Exc unit;
  from_service_account_file : string -> Exc Credentials;
  storage_Client : Credentials -> Exc unit;
  (** the two values of [uuid.uuid4().hex] *)
  uuid_upload : string;
  uuid_output : string;
  upload_from_filename : string -> string -> string -> Exc unit;
  SpeechClient : Credentials -> Exc unit;
  batch_recognize : BatchRecognizeRequest -> Exc Operation;
  (** the seconds after which a wait with the given timeout polls the job
      for the last time *)
  last_poll : Z -> Z;
  download_as_bytes : string -> string -> Exc string;
  from_json : string -> Exc (list SpeechRecognitionResult);
  (** opening the output file for writing *)
  open_for_writing : string -> Exc unit;
  os_remove : string -> Exc unit;
  (** texts of the exceptions raised by the runtime *)
  none_attribute_text : string;
  index_error_text : string;
  timeout_text : Z -> string
}.

(** ** The monad of the worker body *)

(** How a statement ends: normally with a value, by a [return] statement of
    [run], or with an exception on its way to the [except] clause. *)
Inductive result (A : Type) :=
  | Val (a : A)
  | Returned
  | Raised (e : exn).
Arguments Val {A} a.
Arguments Returned {A}.
Arguments Raised {A} e.

Definition M (A : Type) : Type := State -> result A * State.

Definition ret {A} (a : A) : M A := fun st => (Val a, st).

Definition bind {A B} (m : M A) (k : A -> M B) : M B :=
  fun st =>
    match m st with
    | (Val a, st') => k a st'
    | (Returned, st') => (Returned, st')
    | (Raised e, st') => (Raised e, st')
    end.

Declare Scope py_scope.
Delimit Scope py_scope with py.
Notation "x <- m ;; k" := (bind m (fun x => k))
  (at level 100, m at level 60, right associativity) : py_scope.
Notation "m ;; k" := (bind m (fun _ => k))
  (at level 100, right associativity) : py_scope.
Open Scope py_scope.

(** The [return] statement. *)
Definition return_ {A} : M A := fun st => (Returned, st).

(** The [raise] statement. *)
Definition raise {A} (e : exn) : M A := fun st => (Raised e, st).

(** A call into a library whose answer the world gives. *)
Definition call {A} (x : Exc A) : M A :=
  match x with
  | Ok a => ret a
  | Raise e => raise e
  end.

(** Append an event to the trace: a signal is emitted, a call is made. *)
Definition log (e : Event) : M unit :=
  fun st => (Val tt, {| fs := fs st; trace := trace st ++ [e] |}).

(** What [os.path.exists(path)] answers on a file system: the path leads to
    a file that is there, known under the name the path spells or under
    another one. *)
Definition exists_in (w : World) (files : gmap string content) (path : string)
  : bool :=
  existsb (fun name => bool_decide (is_Some (files !! name)))
    (path :: same_file w path).

(** [os.path.exists(path)]. *)
Definition path_exists (w : World) (path : string) : M bool :=
  fun st => (Val (exists_in w (fs st) path), st).

(** A file is created or replaced. *)
Definition write_file (path : string) (c : content) : M unit :=
  fun st => (Val tt, {| fs := <[path := c]> (fs st);
                        trace := trace st ++ [FileWritten path c] |}).

(** A file is deleted. *)
Definition delete_file (path : string) : M unit :=
  fun st => (Val tt, {| fs := delete path (fs st);
                        trace := trace st ++ [FileRemoved path] |}).

(** ** The pipeline *)

Section Pipeline.

Variable w : World.

Definition video_extensions : gset string :=
  {[ ".mp4"; ".mov"; ".avi"; ".mkv"; ".flv"; ".wmv" ]}.
Definition audio_extensions : gset string :=
  {[ ".mp3"; ".wav"; ".flac"; ".ogg"; ".aac"; ".m4a" ]}.

(** [s.lower()]: the ASCII fold on ASCII text, what the Unicode tables give
    on any other. *)
Definition str_lower (s : string) : string :=
  if PyStr.is_ascii s then PyStr.lower s else unicode_lower w s.

(** moviepy's [clip.write_audiofile(filename, fps=, codec=, ffmpeg_params=)]:
    the file it writes has the frame rate and the codec asked for, and the
    number of channels of the clip, which is what moviepy hands to the
    encoder when the caller gives no channel option. *)
Definition clip_write_audiofile (clip : AudioClip) (filename : string)
    (fps : Z) (codec : string) (ffmpeg_params : list string) : M unit :=
  log (CallWriteAudio (clip_source clip) filename fps codec ffmpeg_params) ;;
  match write_audiofile w clip filename with
  | Written => write_file filename (Wave fps codec (nchannels clip))
  | WriteFailed e partial =>
      (if partial then write_file filename PartialWave else ret tt) ;;
      raise e
  end.

(** [operation.result(timeout=t)] of google.api_core: the wait polls the
    job at intervals and gives up when the next poll would come after [t]
    seconds.  It gives the outcome of a job that is terminal when it polls
    for the last time, which is after [t] seconds at the latest, and raises
    [TimeoutError] otherwise. *)
Definition operation_result (op : Operation) (timeout : Z)
  : Exc BatchRecognizeResponse :=
  match seconds_to_done op with
  | Some d =>
      if (d <=? Z.min timeout (last_poll w timeout))%Z then terminal_outcome op
      else Raise (Exn TimeoutError (timeout_text w timeout))
  | None => Raise (Exn TimeoutError (timeout_text w timeout))
  end.

(** [os.remove(path)]. *)
Definition remove (path : string) : M unit :=
  call (os_remove w path) ;;
  delete_file path.

(** Lines 225 to 227: the loop over the segments of the results document.
    [result.alternatives[0]] raises [IndexError] on a segment without
    alternatives. *)
Fixpoint join_transcripts (batch_results : list SpeechRecognitionResult)
    (transcript : string) : Exc string :=
  match batch_results with
  | [] => Ok transcript
  | result :: rest =>
      match alternatives result with
      | [] => Raise (Exn IndexError (index_error_text w))
      | alternative0 :: _ =>
          join_transcripts rest
            (transcript +:+ (alternative0 +:+ String Re.newline ""))
      end
  end.

(** The body of the [try] block of [Worker.run], lines 120 to 237. *)
Definition run_body (input_file : string) : M unit :=
  call (imports w) ;;
  let '(base, ext) := OsPath.splitext input_file in
  let ext := str_lower ext in
  let temp_audio_file := base +:+ "_temp.wav" in
  log (Progress 5) ;;
  let ffmpeg_params := ["-preset"; "ultrafast"] in
  (if bool_decide (ext ∈ video_extensions) then
     clip <- call (VideoFileClip w input_file) ;;
     match audio clip with
     | None => raise (Exn AttributeError (none_attribute_text w))
     | Some clip_audio =>
         clip_write_audiofile clip_audio temp_audio_file 16000 "pcm_s16le"
           ffmpeg_params
     end ;;
     call (clip_close w input_file)
   else if bool_decide (ext ∈ audio_extensions) then
     clip <- call (AudioFileClip w input_file) ;;
     clip_write_audiofile clip temp_audio_file 16000 "pcm_s16le" ffmpeg_params ;;
     call (clip_close w input_file)
   else
     log (Error "Unsupported file type. Please select a valid audio or video file.") ;;
     return_) ;;
  log (Progress 33) ;;
  let missing_credentials {A} : M A :=
    log (Error "Missing or invalid GCP credentials file.") ;; return_ in
  credential_path <-
    match environ w !! "GOOGLE_APPLICATION_CREDENTIALS" with
    | None => missing_credentials
    | Some credential_path =>
        if negb (PyStr.truthy credential_path) then missing_credentials
        else
          found <- path_exists w credential_path ;;
          if negb found then missing_credentials else ret credential_path
    end ;;
  log (CallCredentials credential_path) ;;
  credentials <- call (from_service_account_file w credential_path) ;;
  let PROJECT_ID := project_id credentials in
  let gcs_input_bucket := "speech_to_text_python" in
  let gcs_output_bucket := "speech_to_text_python" in
  (if negb (PyStr.truthy gcs_input_bucket) || negb (PyStr.truthy gcs_output_bucket)
   then
     log (Error "Missing GCS_INPUT_BUCKET or GCS_OUTPUT_BUCKET settings in env.txt.") ;;
     return_
   else ret tt) ;;
  call (storage_Client w credentials) ;;
  let unique_filename :=
    OsPath.basename temp_audio_file +:+ "-" +:+ uuid_upload w +:+ ".wav" in
  log (CallUpload gcs_input_bucket unique_filename temp_audio_file) ;;
  call (upload_from_filename w gcs_input_bucket unique_filename temp_audio_file) ;;
  let audio_uri := "gs://" +:+ gcs_input_bucket +:+ "/" +:+ unique_filename in
  log (Progress 40) ;;
  let output_filename := "transcript-" +:+ uuid_output w +:+ ".json" in
  let gcs_output_uri := "gs://" +:+ gcs_output_bucket +:+ "/" +:+ output_filename in
  log (Progress 42) ;;
  let request :=
    {| recognizer := "projects/" +:+ PROJECT_ID +:+ "/locations/global/recognizers/_";
       config := {| auto_decoding_config := true;
                    language_codes := ["id-ID"];
                    model := "long" |};
       files := [audio_uri];
       recognition_output_config := gcs_output_uri |} in
  log (Progress 50) ;;
  call (SpeechClient w credentials) ;;
  log (CallBatchRecognize request) ;;
  operation <- call (batch_recognize w request) ;;
  log (Progress 55) ;;
  log (CallResult 3600) ;;
  response <- call (operation_result operation 3600) ;;
  log (Progress 75) ;;
  let no_results {A} : M A :=
    log (Error "No results found for the input file.") ;; return_ in
  file_results <-
    match results response !! audio_uri with
    | None => no_results
    | Some file_results =>
        if negb (file_result_truthy file_results) then no_results
        else ret file_results
    end ;;
  m <-
    match Re.match_gs_uri (uri file_results) with
    | None => log (Error "Failed to parse output URI.") ;; return_
    | Some m => ret m
    end ;;
  let '(output_bucket_name, output_object) := m in
  log (CallDownload output_bucket_name output_object) ;;
  results_bytes <- call (download_as_bytes w output_bucket_name output_object) ;;
  batch_results <- call (from_json w results_bytes) ;;
  transcript <- call (join_transcripts batch_results "") ;;
  log (Progress 90) ;;
  let output_file := base +:+ ".txt" in
  call (open_for_writing w output_file) ;;
  write_file output_file (Text "utf-8" transcript) ;;
  log (Progress 100) ;;
  still_there <- path_exists w temp_audio_file ;;
  (if still_there then remove temp_audio_file else ret tt) ;;
  log (Finished ("Transcription saved to " +:+ output_file)).

(** [Worker.run]: the [try] block, and the [except Exception] clause that
    turns an exception into the error signal with its text. *)
Definition run (input_file : string) (st : State) : State :=
  match run_body input_file st with
  | (Raised e, st') => snd (log (Error (exn_str e)) st')
  | (_, st') => st'
  end.

End Pipeline.

(** ** Reading a run *)

(** A run starts on a file system, with nothing done yet. *)
Definition start (fs0 : gmap string content) : State :=
  {| fs := fs0; trace := [] |}.

(** The temporary waveform path and the output path of a run, lines 127 to
    129 and 230. *)
Definition temp_path (input_file : string) : string :=
  fst (OsPath.splitext input_file) +:+ "_temp.wav".
Definition output_path (input_file : string) : string :=
  fst (OsPath.splitext input_file) +:+ ".txt".

Definition progress_of (e : Event) : option Z :=
  match e with
  | Progress n => Some n
  | _ => None
  end.

(** The percentages emitted on the [progress] signal, in order. *)
Definition progress_values (t : list Event) : list Z := omap progress_of t.

Definition is_signal (e : Event) : bool :=
  match e with
  | Progress _ | Finished _ | Error _ => true
  | _ => false
  end.

(** The signals of a trace, in order. *)
Definition signals (t : list Event) : list Event := List.filter is_signal t.

(** The progress sequence of the full pipeline. *)
Definition full_progress : list Z := [5; 33; 40; 42; 50; 55; 75; 90; 100]%Z.

(** A run succeeds when it emits the [finished] signal. *)
Definition succeeded (t : list Event) : Prop := ∃ msg, Finished msg ∈ t.

(** The clip whose audio the normalizer writes, when the imports of the run
    succeed, the input has a supported extension and the decoder opens it
    (lines 120 to 151). *)
Definition decoded_clip (w : World) (input_file : string) : option AudioClip :=
  match imports w with
  | Raise _ => None
  | Ok _ =>
      let ext := str_lower w (snd (OsPath.splitext input_file)) in
      if bool_decide (ext ∈ video_extensions) then
        match VideoFileClip w input_file with
        | Ok clip => audio clip
        | Raise _ => None
        end
      else if bool_decide (ext ∈ audio_extensions) then
        match AudioFileClip w input_file with
        | Ok clip => Some clip
        | Raise _ => None
        end
      else None
  end.

(** The input has one of the extensions of lines 132 and 133, whatever its
    case: the test of lines 138 and 145 on the lowered extension. *)
Definition supported (w : World) (input_file : string) : Prop :=
  let ext := str_lower w (snd (OsPath.splitext input_file)) in
  ext ∈ video_extensions ∨ ext ∈ audio_extensions.

(** An address of the form gs://bucket/object, as the words of the claim on
    the output address have it: a bucket that is not empty and has no
    slash, then a slash, then an object that runs to the end of the line.
    What follows the object, if anything does, starts with a newline. *)
Definition gs_address (address bucket object : string) : Prop :=
  ∃ rest,
    address = "gs://" +:+ bucket +:+ "/" +:+ object +:+ rest ∧
    bucket ≠ "" ∧ PyStr.contains "/" bucket = false ∧
    PyStr.contains Re.newline object = false ∧
    (rest = "" ∨ ∃ r, rest = String Re.newline r).

(** What a greedy run of characters other than [c] leaves behind: nothing,
    or a rest that starts with [c]. *)
Definition stops_at (c : ascii) (rest : string) : Prop :=
  rest = "" ∨ ∃ r, rest = String c r.

(** A value is supplied by the configuration when some setting holds it. *)
Definition supplied_by_configuration (w : World) (v : string) : Prop :=
  ∃ key, environ w !! key = Some v.

(** The bucket an address [gs://bucket/object] names, by the pattern of the
    pipeline itself. *)
Definition bucket_of (address : string) : option string :=
  fst <$> Re.match_gs_uri address.

(** The transcript of a results document as the specification words it:
    for each segment in order, its first alternative and a newline. *)
Definition line_of (segment : SpeechRecognitionResult) : string :=
  match alternatives segment with
  | alternative0 :: _ => alternative0 +:+ String Re.newline ""
  | [] => ""
  end.
Fixpoint transcript_of (document : list SpeechRecognitionResult) : string :=
  match document with
  | [] => ""
  | segment :: rest => line_of segment +:+ transcript_of rest
  end.

(** The configuration is missing its credential file when the check of
    lines 158 and 159 is made: no setting, an empty one, or a path that
    leads to no file.  The path leads to none of the files that are there
    before the run, and not to the temporary waveform either, under
    whatever name: it is the only file a run creates before the check. *)
Definition credential_absent (w : World) (fs0 : gmap string content)
    (input_file : string) : Prop :=
  match environ w !! "GOOGLE_APPLICATION_CREDENTIALS" with
  | None => True
  | Some path =>
      path = "" ∨
      (exists_in w fs0 path = false ∧
       temp_path input_file ∉ path :: same_file w path)
  end.

(** ** Concrete worlds *)

(** A world in which every collaborator answers: the clip is stereo, the job
    is done after [seconds], reports [address] for the staged object, and
    the downloaded bytes parse to [document].  Every file has one name, and
    the wait polls up to its deadline. *)
Definition make_world (env : gmap string string) (seconds : option Z)
    (address : string) (document : list SpeechRecognitionResult) : World :=
  {| environ := env;
     imports := Ok tt;
     unicode_lower := fun s => s;
     same_file := fun _ => [];
     VideoFileClip := fun _ => Ok {| audio := None |};
     AudioFileClip := fun path => Ok {| clip_source := path; nchannels := 2 |};
     write_audiofile := fun _ _ => Written;
     clip_close := fun _ => Ok tt;
     from_service_account_file := fun _ => Ok {| project_id := "demo" |};
     storage_Client := fun _ => Ok tt;
     uuid_upload := "0a1b";
     uuid_output := "2c3d";
     upload_from_filename := fun _ _ _ => Ok tt;
     SpeechClient := fun _ => Ok tt;
     batch_recognize := fun request =>
       Ok {| seconds_to_done := seconds;
             terminal_outcome :=
               Ok {| results :=
                       {[ hd "" (files request) :=
                            {| uri := address; other_field_set := false |} ]} |} |};
     last_poll := fun timeout => timeout;
     download_as_bytes := fun _ _ => Ok "{}";
     from_json := fun _ => Ok document;
     open_for_writing := fun _ => Ok tt;
     os_remove := fun _ => Ok tt;
     none_attribute_text := "'NoneType' object has no attribute 'write_audiofile'";
     index_error_text := "list index out of range";
     timeout_text := fun _ => "Operation did not complete within the designated timeout."
  |}.

(** The settings of env.txt: a credential file and two bucket names. *)
Definition sample_env : gmap string string :=
  {[ "GOOGLE_APPLICATION_CREDENTIALS" := "key.json";
     "GCS_INPUT_BUCKET" := "in";
     "GCS_OUTPUT_BUCKET" := "out" ]}.

(** The file system before the run: the input and the credential file. *)
Definition sample_fs : gmap string content :=
  {[ "sample.mp3" := Other "ID3"; "key.json" := Other "{}" ]}.

Definition segment (text : string) : SpeechRecognitionResult :=
  {| alternatives := [text] |}.

(** The end-to-end scenario: one segment, done after two minutes. *)
Definition sample_world : World :=
  make_world sample_env (Some 120%Z) "gs://out/transcript-2c3d.json"
    [segment "test transcript"].

(** Two segments. *)
Definition hello_world : World :=
  make_world sample_env (Some 120%Z) "gs://out/transcript-2c3d.json"
    [segment "hello"; segment "world"].

(** The same, without any setting. *)
Definition unconfigured_world : World :=
  make_world ∅ (Some 120%Z) "gs://out/transcript-2c3d.json"
    [segment "test transcript"].

(** A job that is still running after two hours. *)
Definition slow_world : World :=
  make_world sample_env (Some 7200%Z) "gs://out/transcript-2c3d.json"
    [segment "test transcript"].

(** A job that reports an address without an object part. *)
Definition malformed_world : World :=
  make_world sample_env (Some 120%Z) "gs://out" [segment "test transcript"].

(** A document whose second segment has no alternative. *)
Definition empty_segment_world : World :=
  make_world sample_env (Some 120%Z) "gs://out/transcript-2c3d.json"
    [segment "hello"; {| alternatives := [] |}; segment "world"].

(** The address under which the scenario stages the waveform, and what the
    service answers for it. *)
Definition sample_audio_uri : string :=
  "gs://speech_to_text_python/sample_temp.wav-0a1b.wav".

Definition sample_response (address : string) : BatchRecognizeResponse :=
  {| results :=
       {[ sample_audio_uri := {| uri := address; other_field_set := false |} ]} |}.

Definition sample_operation (seconds : option Z) (address : string) : Operation :=
  {| seconds_to_done := seconds;
     terminal_outcome := Ok (sample_response address) |}.

(** The request the end-to-end scenario submits. *)
Definition sample_request : BatchRecognizeRequest :=
  {| recognizer := "projects/demo/locations/global/recognizers/_";
     config := {| auto_decoding_config := true;
                  language_codes := ["id-ID"];
                  model := "long" |};
     files := ["gs://speech_to_text_python/sample_temp.wav-0a1b.wav"];
     recognition_output_config := "gs://speech_to_text_python/transcript-2c3d.json" |}.

(** ** The settings file: [load_env], [save_env] and the settings dialog *)

Module Settings.

Definition LF : ascii := "010"%char.
Definition CR : ascii := "013"%char.
Definition NUL : ascii := "000"%char.

(** The white space of [str.strip], which is that of [str.isspace].  In
    ASCII: tab to carriage return, the four separators 28 to 31, and the
    space. *)
Definition is_space (c : ascii) : bool :=
  let n := nat_of_ascii c in
  ((9 <=? n) && (n <=? 13) || (28 <=? n) && (n <=? 32))%nat.

(** In two bytes: U+0085 and U+00A0. *)
Definition is_space2 (c1 c2 : ascii) : bool :=
  let n2 := nat_of_ascii c2 in
  ((nat_of_ascii c1 =? 194) && ((n2 =? 133) || (n2 =? 160)))%nat.

(** In three bytes: U+1680, U+2000 to U+200A, U+2028, U+2029, U+202F,
    U+205F and U+3000.  No character of four bytes is white space. *)
Definition is_space3 (c1 c2 c3 : ascii) : bool :=
  let n1 := nat_of_ascii c1 in
  let n2 := nat_of_ascii c2 in
  let n3 := nat_of_ascii c3 in
  ((n1 =? 225) && (n2 =? 154) && (n3 =? 128)
   || (n1 =? 226) && (n2 =? 128)
      && ((128 <=? n3) && (n3 <=? 138) || (n3 =? 168) || (n3 =? 169)
          || (n3 =? 175))
   || (n1 =? 226) && (n2 =? 129) && (n3 =? 159)
   || (n1 =? 227) && (n2 =? 128) && (n3 =? 128))%nat.

(** The text after its first character, when that is white space. *)
Definition space_prefix (s : string) : option string :=
  match s with
  | "" => None
  | String c1 s1 =>
      if is_space c1 then Some s1
      else
        match s1 with
        | "" => None
        | String c2 s2 =>
            if is_space2 c1 c2 then Some s2
            else
              match s2 with
              | "" => None
              | String c3 s3 => if is_space3 c1 c2 c3 then Some s3 else None
              end
        end
  end.

(** [s.lstrip()]. *)
Fixpoint lstrip (s : string) : string :=
  match s with
  | "" => ""
  | String c1 s1 =>
      if is_space c1 then lstrip s1
      else
        match s1 with
        | "" => s
        | String c2 s2 =>
            if is_space2 c1 c2 then lstrip s2
            else
              match s2 with
              | "" => s
              | String c3 s3 => if is_space3 c1 c2 c3 then lstrip s3 else s
              end
        end
  end.

(** The text is one white space character. *)
Definition one_space (s : string) : bool :=
  match s with
  | String c1 "" => is_space c1
  | String c1 (String c2 "") => is_space2 c1 c2
  | String c1 (String c2 (String c3 "")) => is_space3 c1 c2 c3
  | _ => false
  end.

(** [s.rstrip()], from the end: a byte is kept with what [rstrip] leaves of
    the text after it, unless the two together are one white space
    character and nothing more. *)
Fixpoint rstrip (s : string) : string :=
  match s with
  | "" => ""
  | String c s' =>
      let r := String c (rstrip s') in
      if one_space r then "" else r
  end.

(** [s.strip()]. *)
Definition strip (s : string) : string := rstrip (lstrip s).

(** [s.startswith(prefix)]. *)
Fixpoint startswith (prefix s : string) : bool :=
  match prefix, s with
  | "", _ => true
  | String a prefix', String b s' => Ascii.eqb a b && startswith prefix' s'
  | String _ _, "" => false
  end.

(** What a file opened in text mode for reading gives for the data it
    holds: a carriage return, alone or before a line feed, is read as a line
    feed. *)
Fixpoint universal_newlines (s : string) : string :=
  match s with
  | "" => ""
  | String c s' =>
      if Ascii.eqb c CR then
        String LF
          match s' with
          | String c' s'' =>
              if Ascii.eqb c' LF then universal_newlines s''
              else universal_newlines s'
          | "" => ""
          end
      else String c (universal_newlines s')
  end.

(** [for line in f]: the lines of the text, each with its line feed; the
    last one may lack it. *)
Fixpoint readlines (s : string) : list string :=
  match s with
  | "" => []
  | String c s' =>
      if Ascii.eqb c LF then String c "" :: readlines s'
      else
        match readlines s' with
        | [] => [String c ""]
        | line :: rest => String c line :: rest
        end
  end.

(** [a, b = s.split(sep, 1)] for a string that contains [sep], which is how
    the code uses it: what is before the first [sep] and what is after. *)
Definition split_once (sep : ascii) (s : string) : string * string :=
  let '(head, rest) := Re.span_not sep s in (head, PyStr.drop 1 rest).

(** The exceptions of [os.environ[key] = value] on POSIX. *)
Definition embedded_null : exn := Exn OtherException "embedded null byte".
Definition illegal_name : exn :=
  Exn OtherException "illegal environment variable name".
Definition invalid_argument : exn :=
  Exn OtherException "[Errno 22] Invalid argument".

(** [os.environ[key] = value]: a null character in either string, an equals
    sign in the name or an empty name is refused. *)
Definition environ_setitem (key value : string) (environ : gmap string string)
  : Exc (gmap string string) :=
  if PyStr.contains NUL key || PyStr.contains NUL value then Raise embedded_null
  else if PyStr.contains "=" key then Raise illegal_name
  else if negb (PyStr.truthy key) then Raise invalid_argument
  else Ok (<[key := value]> environ).

(** What reading env.txt in text mode gives: the text the bytes of the file
    decode to, or, when the file cannot be opened or its bytes cannot be
    decoded, the lines the reader yields before it raises. *)
Inductive EnvFile :=
  | Readable (text : string)
  | Unreadable (lines : list string) (e : exn).

(** The process: the file env.txt of the working directory, when there is
    one, and [os.environ]. *)
Record Process := {
  env_txt : option EnvFile;
  os_environ : gmap string string
}.

(** The body of the loop of [load_env], lines 69 to 74. *)
Definition load_line (line : string) (environ : gmap string string)
  : Exc (gmap string string) :=
  let line := strip line in
  if negb (PyStr.truthy line) || startswith "#" line then Ok environ
  else if PyStr.contains "=" line then
    let '(key, value) := split_once "=" line in
    environ_setitem (strip key) (strip value) environ
  else Ok environ.

(** The loop of [load_env]: the environment it leaves, and the exception
    that stopped it, if one did. *)
Fixpoint load_lines (lines : list string) (environ : gmap string string)
  : gmap string string * Exc unit :=
  match lines with
  | [] => (environ, Ok tt)
  | line :: rest =>
      match load_line line environ with
      | Ok environ' => load_lines rest environ'
      | Raise e => (environ, Raise e)
      end
  end.

(** [load_env()], lines 60 to 74. *)
Definition load_env (p : Process) : Process * Exc unit :=
  match env_txt p with
  | None => (p, Ok tt)
  | Some (Readable text) =>
      let '(environ, outcome) :=
        load_lines (readlines (universal_newlines text)) (os_environ p) in
      ({| env_txt := env_txt p; os_environ := environ |}, outcome)
  | Some (Unreadable lines e) =>
      let '(environ, outcome) := load_lines lines (os_environ p) in
      ({| env_txt := env_txt p; os_environ := environ |},
       match outcome with
       | Ok _ => Raise e
       | Raise e' => Raise e'
       end)
  end.

(** What the system answers to the [with] block of [save_env]: the text is
    written; or the file cannot be opened; or it is opened, which empties
    it, and writing the text raises, leaving some file behind. *)
Inductive SaveAnswer :=
  | Saved
  | OpenRaised (e : exn)
  | WriteRaised (e : exn) (remains : EnvFile).

(** [save_env(text)], lines 77 to 84. *)
Definition save_env (answer : SaveAnswer) (text : string) (p : Process)
  : Process * Exc unit :=
  match answer with
  | OpenRaised e => (p, Raise e)
  | WriteRaised e remains =>
      ({| env_txt := Some remains; os_environ := os_environ p |}, Raise e)
  | Saved =>
      load_env {| env_txt := Some (Readable text); os_environ := os_environ p |}
  end.

(** The three line edits of the settings dialog. *)
Record DialogValues := {
  creds_value : string;
  input_bucket_value : string;
  output_bucket_value : string
}.

(** The body of the loop of [EnvironmentDialog.__init__], lines 298 to
    307. *)
Definition dialog_line (line : string) (v : DialogValues) : DialogValues :=
  let line := strip line in
  if startswith "GOOGLE_APPLICATION_CREDENTIALS=" line then
    let '(_, val) := split_once "=" line in
    {| creds_value := strip val;
       input_bucket_value := input_bucket_value v;
       output_bucket_value := output_bucket_value v |}
  else if startswith "GCS_INPUT_BUCKET=" line then
    let '(_, val) := split_once "=" line in
    {| creds_value := creds_value v;
       input_bucket_value := strip val;
       output_bucket_value := output_bucket_value v |}
  else if startswith "GCS_OUTPUT_BUCKET=" line then
    let '(_, val) := split_once "=" line in
    {| creds_value := creds_value v;
       input_bucket_value := input_bucket_value v;
       output_bucket_value := strip val |}
  else v.

(** What the dialog shows when it opens, lines 290 to 310; an exception of
    the reader leaves [__init__] before the line edits are filled. *)
Definition dialog_init (file : option EnvFile) : Exc DialogValues :=
  let empty :=
    {| creds_value := ""; input_bucket_value := ""; output_bucket_value := "" |} in
  match file with
  | None => Ok empty
  | Some (Readable text) =>
      Ok (fold_left (fun v line => dialog_line line v)
            (readlines (universal_newlines text)) empty)
  | Some (Unreadable _ e) => Raise e
  end.

(** The text [save_settings] builds from the three line edits, lines 323 to
    330. *)
Definition settings_content (creds_text input_text output_text : string)
  : string :=
  let creds_value := strip creds_text in
  let input_bucket_value := strip input_text in
  let output_bucket_value := strip output_text in
  ("GOOGLE_APPLICATION_CREDENTIALS=" +:+ creds_value +:+ String LF "")
  +:+ ("GCS_INPUT_BUCKET=" +:+ input_bucket_value +:+ String LF "")
  +:+ ("GCS_OUTPUT_BUCKET=" +:+ output_bucket_value +:+ String LF "").

(** [EnvironmentDialog.save_settings], lines 322 to 333: the settings are
    saved and loaded; the confirmation is shown when no exception stopped
    that. *)
Definition save_settings (answer : SaveAnswer)
    (creds_text input_text output_text : string) (p : Process)
  : Process * Exc string :=
  match save_env answer (settings_content creds_text input_text output_text) p with
  | (p', Ok _) => (p', Ok "Environment settings saved.")
  | (p', Raise e) => (p', Raise e)
  end.

(** A text a line edit can hold and a setting can carry: no line break and
    no null character. *)
Definition single_line (s : string) : Prop :=
  PyStr.contains LF s = false ∧ PyStr.contains CR s = false
  ∧ PyStr.contains NUL s = false.

(** What a line of env.txt assigns, if it assigns anything: the reading of
    lines 69 to 74 as a function of the line alone. *)
Definition assignment (line : string) : option (string * string) :=
  let line := strip line in
  if negb (PyStr.truthy line) || startswith "#" line then None
  else if PyStr.contains "=" line then
    let '(key, value) := split_once "=" line in Some (strip key, strip value)
  else None.

(** The last value the lines assign to a key. *)
Fixpoint last_assigned (key : string) (lines : list string) : option string :=
  match lines with
  | [] => None
  | line :: rest =>
      match last_assigned key rest with
      | Some value => Some value
      | None =>
          match assignment line with
          | Some (k, value) => if String.eqb k key then Some value else None
          | None => None
          end
      end
  end.

(** What [lstrip] leaves: a text that does not start with white space. *)
Definition left_clean (s : string) : Prop := space_prefix s = None.

(** A name of a setting as [save_settings] writes it: ASCII, stripped, not
    empty, no comment mark, and none of the characters that end a name, a
    line or a C string. *)
Definition plain_name (name : string) : Prop :=
  PyStr.is_ascii name = true ∧
  strip name = name ∧ name ≠ "" ∧ startswith "#" name = false ∧
  PyStr.contains "=" name = false ∧ PyStr.contains NUL name = false ∧
  PyStr.contains LF name = false ∧ PyStr.contains CR name = false.

(** The environment after [save_settings] took the three texts. *)
Definition saved_environ (creds_text input_text output_text : string)
    (environ : gmap string string) : gmap string string :=
  <["GCS_OUTPUT_BUCKET" := strip output_text]>
    (<["GCS_INPUT_BUCKET" := strip input_text]>
       (<["GOOGLE_APPLICATION_CREDENTIALS" := strip creds_text]> environ)).

End Settings.

(** ** The main window: [MainWindow.start_processing] and the slots of the
    worker's signals *)

Module Ui.

Inductive MessageBox :=
  | Warning (title text : string)
  | Information (title text : string)
  | Critical (title text : string).

(** The widgets the slots touch: the process button, the progress bar, the
    status label, the message boxes shown so far (the latest last) and the
    input path of the worker started last. *)
Record Window := {
  process_enabled : bool;
  progress_value : Z;
  status_text : string;
  boxes : list MessageBox;
  worker : option string
}.

(** [QProgressBar.setValue] with the default range 0 to 100: a value out of
    the range is ignored. *)
Definition setValue (n : Z) (win : Window) : Window :=
  if ((0 <=? n) && (n <=? 100))%Z then
    {| process_enabled := process_enabled win;
       progress_value := n;
       status_text := status_text win;
       boxes := boxes win;
       worker := worker win |}
  else win.

(** [MainWindow.start_processing], lines 390 to 404: the window after it,
    and the path of the worker it started, if it started one. *)
Definition start_processing (w : World) (input_line : string)
    (fs0 : gmap string content) (win : Window) : Window * option string :=
  let file_path := Settings.strip input_line in
  if negb (PyStr.truthy file_path) || negb (exists_in w fs0 file_path)
  then
    ({| process_enabled := process_enabled win;
        progress_value := progress_value win;
        status_text := status_text win;
        boxes := boxes win ++ [Warning "Error" "Please select a valid file."];
        worker := worker win |}, None)
  else
    (setValue 0
       {| process_enabled := false;
          progress_value := progress_value win;
          status_text := "Processing...";
          boxes := boxes win;
          worker := Some file_path |},
     Some file_path).

(** [MainWindow.processing_finished], lines 406 to 409. *)
Definition processing_finished (message : string) (win : Window) : Window :=
  {| process_enabled := true;
     progress_value := progress_value win;
     status_text := message;
     boxes := boxes win ++ [Information "Done" message];
     worker := worker win |}.

(** [MainWindow.processing_error], lines 411 to 415. *)
Definition processing_error (error_message : string) (win : Window) : Window :=
  setValue 0
    {| process_enabled := true;
       progress_value := progress_value win;
       status_text := "Error: " +:+ error_message;
       boxes := boxes win ++ [Critical "Error" error_message];
       worker := worker win |}.

(** The slot connected to each signal of the worker, lines 401 to 403;
    the other events of a run are not seen by the window. *)
Definition on_event (win : Window) (e : Event) : Window :=
  match e with
  | Progress n => setValue n win
  | Finished message => processing_finished message win
  | Error error_message => processing_error error_message win
  | _ => win
  end.

(** The signals of a run delivered in the order of their emission. *)
Definition deliver (events : list Event) (win : Window) : Window :=
  fold_left on_event events win.

(** A click on the process button with [input_line] in the line edit, and
    the run of the worker it starts, seen after the first [delivered]
    events of the run have reached the window. *)
Definition session (w : World) (input_line : string)
    (fs0 : gmap string content) (delivered : nat) (win : Window) : Window :=
  match start_processing w input_line fs0 win with
  | (win', None) => win'
  | (win', Some file_path) =>
      deliver (List.firstn delivered (trace (run w file_path (start fs0)))) win'
  end.

End Ui.

(** ** The run and its environment *)

(** The world with another environment. *)
Definition with_environ (env : gmap string string) (w : World) : World :=
  {| environ := env;
     imports := imports w;
     unicode_lower := unicode_lower w;
     same_file := same_file w;
     VideoFileClip := VideoFileClip w;
     AudioFileClip := AudioFileClip w;
     write_audiofile := write_audiofile w;
     clip_close := clip_close w;
     from_service_account_file := from_service_account_file w;
     storage_Client := storage_Client w;
     uuid_upload := uuid_upload w;
     uuid_output := uuid_output w;
     upload_from_filename := upload_from_filename w;
     SpeechClient := SpeechClient w;
     batch_recognize := batch_recognize w;
     last_poll := last_poll w;
     download_as_bytes := download_as_bytes w;
     from_json := from_json w;
     open_for_writing := open_for_writing w;
     os_remove := os_remove w;
     none_attribute_text := none_attribute_text w;
     index_error_text := index_error_text w;
     timeout_text := timeout_text w |}.

(** The world with another runtime: another lowering of the texts that are
    not ASCII, other names for the files, another last poll of the wait. *)
Definition with_runtime (lower : string -> string)
    (names : string -> list string) (poll : Z -> Z) (w : World) : World :=
  {| environ := environ w;
     imports := imports w;
     unicode_lower := lower;
     same_file := names;
     VideoFileClip := VideoFileClip w;
     AudioFileClip := AudioFileClip w;
     write_audiofile := write_audiofile w;
     clip_close := clip_close w;
     from_service_account_file := from_service_account_file w;
     storage_Client := storage_Client w;
     uuid_upload := uuid_upload w;
     uuid_output := uuid_output w;
     upload_from_filename := upload_from_filename w;
     SpeechClient := SpeechClient w;
     batch_recognize := batch_recognize w;
     last_poll := poll;
     download_as_bytes := download_as_bytes w;
     from_json := from_json w;
     open_for_writing := open_for_writing w;
     os_remove := os_remove w;
     none_attribute_text := none_attribute_text w;
     index_error_text := index_error_text w;
     timeout_text := timeout_text w |}.

(** The Kelvin sign U+212A, which [str.lower] maps to the letter k, an input
    whose extension is written with it, and a world that lowers it. *)
Definition kelvin_sign : string :=
  String "226" (String "132" (String "170" "")).
Definition kelvin_input : string := "x.m" +:+ kelvin_sign +:+ "v".
Definition kelvin_world : World :=
  with_runtime
    (fun s => if String.eqb s (".m" +:+ kelvin_sign +:+ "v") then ".mkv" else s)
    (fun _ => []) (fun timeout => timeout) sample_world.

(** A world in which the credential setting is another spelling of the
    temporary waveform of sample.mp3. *)
Definition alias_world : World :=
  with_runtime (fun s => s)
    (fun path =>
       if String.eqb path "./sample_temp.wav" then ["sample_temp.wav"] else [])
    (fun timeout => timeout)
    (with_environ {[ "GOOGLE_APPLICATION_CREDENTIALS" := "./sample_temp.wav" ]}
       sample_world).

(** A world in which the wait polls for the last time ten seconds before
    its deadline, and the job is done at the deadline. *)
Definition early_world : World :=
  with_runtime (fun s => s) (fun _ => []) (fun timeout => (timeout - 10)%Z)
    (make_world sample_env (Some 3600%Z) "gs://out/transcript-2c3d.json"
       [segment "test transcript"]).

(** The no-break space U+00A0. *)
Definition nbsp : string := String "194" (String "160" "").

(** The name under which a run stages its waveform, line 176, and the two
    addresses of lines 179 and 184. *)
Definition staged_name (w : World) (input_file : string) : string :=
  OsPath.basename (temp_path input_file) +:+ "-" +:+ uuid_upload w +:+ ".wav".
Definition staged_uri (w : World) (input_file : string) : string :=
  "gs://" +:+ "speech_to_text_python" +:+ "/" +:+ staged_name w input_file.
Definition results_uri (w : World) : string :=
  "gs://" +:+ "speech_to_text_python" +:+ "/"
  +:+ "transcript-" +:+ uuid_output w +:+ ".json".

(** An event that is not one of the two final signals. *)
Definition quiet (e : Event) : bool :=
  match e with
  | Finished _ | Error _ => false
  | _ => true
  end.

(** The window with another value in its progress bar. *)
Definition with_progress (n : Z) (win : Ui.Window) : Ui.Window :=
  {| Ui.process_enabled := Ui.process_enabled win;
     Ui.progress_value := n;
     Ui.status_text := Ui.status_text win;
     Ui.boxes := Ui.boxes win;
     Ui.worker := Ui.worker win |}.

(** A job that fails after half a minute, and a world that runs it. *)
Definition failing_operation : Operation :=
  {| seconds_to_done := Some 30%Z;
     terminal_outcome := Raise (Exn OtherException "400 Audio is too long.") |}.

Definition failed_job_world : World :=
  {| environ := sample_env;
     imports := imports sample_world;
     unicode_lower := unicode_lower sample_world;
     same_file := same_file sample_world;
     VideoFileClip := VideoFileClip sample_world;
     AudioFileClip := AudioFileClip sample_world;
     write_audiofile := write_audiofile sample_world;
     clip_close := clip_close sample_world;
     from_service_account_file := from_service_account_file sample_world;
     storage_Client := storage_Client sample_world;
     uuid_upload := uuid_upload sample_world;
     uuid_output := uuid_output sample_world;
     upload_from_filename := upload_from_filename sample_world;
     SpeechClient := SpeechClient sample_world;
     batch_recognize := fun _ => Ok failing_operation;
     last_poll := last_poll sample_world;
     download_as_bytes := download_as_bytes sample_world;
     from_json := from_json sample_world;
     open_for_writing := open_for_writing sample_world;
     os_remove := os_remove sample_world;
     none_attribute_text := none_attribute_text sample_world;
     index_error_text := index_error_text sample_world;
     timeout_text := timeout_text sample_world |}.

(** ** Facts about [os.path.exists] *)

(** A file that is there under the name a path spells exists. *)
Lemma exists_in_own (w : World) (files : gmap string content) (path : string) :
  is_Some (files !! path) → exists_in w files path = true.
Proof.
  intros Hsome. unfold exists_in. cbn [existsb].
  rewrite (bool_decide_eq_true_2 _ Hsome). reflexivity.
Qed.

(** Writing a file to which a path does not lead does not change whether
    the path exists. *)
Lemma exists_in_insert (w : World) (files : gmap string content)
    (path name : string) (c : content) :
  name ∉ path :: same_file w path →
  exists_in w (<[name := c]> files) path = exists_in w files path.
Proof.
  unfold exists_in. generalize (path :: same_file w path) as names.
  induction names as [|first names IH]; intros Hnot; [reflexivity|].
  apply not_elem_of_cons in Hnot as [Hne Hnot].
  cbn [existsb]. rewrite lookup_insert_ne by exact Hne.
  rewrite (IH Hnot). reflexivity.
Qed.

(** ** Symbolic execution of a run *)

(** The scrutinee on which a stuck chain of matches waits. *)
Ltac stuck_head t :=
  lazymatch t with
  | match ?x with _ => _ end => stuck_head x
  | ?f ?a =>
      lazymatch f with
      | match _ with _ => _ end => stuck_head f
      | _ => t
      end
  | _ => t
  end.

Ltac reduce_in H :=
  cbv beta iota zeta delta
    [run_body bind ret call log raise return_ write_file delete_file
     path_exists remove clip_write_audiofile start fst snd fs trace
     negb orb andb PyStr.truthy app] in H.

(** Follow the body statement by statement in [H : run_body .. = ..],
    splitting on each answer of the world in the order the body asks. *)
Ltac exec_in H :=
  reduce_in H;
  repeat (
    lazymatch type of H with
    | ?lhs = _ =>
        let x := stuck_head lhs in
        lazymatch x with
        | (_, _) => fail
        | _ => destruct x eqn:?; reduce_in H
        end
    end).

(** All the paths of a run. *)
Ltac run_paths w input fs0 :=
  let r := fresh "r" in
  let st' := fresh "st'" in
  let Hrun := fresh "Hrun" in
  unfold run in *;
  destruct (run_body w input (start fs0)) as [r st'] eqn:Hrun;
  exec_in Hrun;
  inversion Hrun; subst; clear Hrun;
  cbn [log snd fs trace app] in *.

(** Membership of an event in an explicit trace. *)
Ltac elem_inv H :=
  repeat
    lazymatch type of H with
    | _ ∈ [] => apply elem_of_nil in H; destruct H
    | _ ∈ _ :: _ =>
        apply elem_of_cons in H; destruct H as [H | H];
        [ try discriminate H | ]
    end.

Ltac elem_solve :=
  first [ apply list_elem_of_here | apply list_elem_of_further; elem_solve ].

Ltac not_elem :=
  let H := fresh "H" in intros H; elem_inv H.

(** A trace ends with the given events. *)
Ltac ends_with :=
  lazymatch goal with
  | |- ∃ before, ?t = before ++ ?suffix =>
      exists (List.firstn (length t - length suffix) t); reflexivity
  end.

(** Two answers of the world to the same question are the same answer. *)
Ltac same_answer Hop :=
  match goal with
  | H : ?lhs = _ |- _ =>
      lazymatch type of Hop with
      | lhs = _ => rewrite Hop in H; (discriminate H || injection H as <-)
      end
  end.

(** The extension test that sent the run into a branch. *)
Ltac ext_case :=
  first [ left; eapply bool_decide_eq_true_1; eassumption
        | right; eapply bool_decide_eq_true_1; eassumption ].

(** The trace of a run in a concrete world, computed. *)
Ltac eval_trace :=
  repeat match goal with
  | |- context [trace (run ?w ?i ?s)] =>
      let v := eval vm_compute in (trace (run w i s)) in
      change (trace (run w i s)) with v
  | H : context [trace (run ?w ?i ?s)] |- _ =>
      let v := eval vm_compute in (trace (run w i s)) in
      change (trace (run w i s)) with v in H
  end.

(** Lookups in the file system a run leaves; the two arguments are the
    facts that the output path and the temporary path differ. *)
Ltac fs_lookup_by ne_ot ne_to :=
  repeat first
    [ rewrite lookup_delete_eq
    | rewrite lookup_insert_eq
    | rewrite (lookup_insert_ne _ _ _ _ (ne_ot _))
    | rewrite (lookup_insert_ne _ _ _ _ (ne_to _))
    | rewrite (lookup_delete_ne _ _ _ (ne_to _)) ].

Ltac fs_lookup_in_by ne_ot ne_to H :=
  repeat first
    [ rewrite lookup_delete_eq in H
    | rewrite lookup_insert_eq in H
    | rewrite (lookup_insert_ne _ _ _ _ (ne_ot _)) in H
    | rewrite (lookup_insert_ne _ _ _ _ (ne_to _)) in H
    | rewrite (lookup_delete_ne _ _ _ (ne_to _)) in H ].

(** The branch in which the temporary file has vanished before line 235
    cannot be taken: the run has written it and nothing removes it. *)
Ltac temp_still_there_by ne_ot ne_to :=
  try match goal with
  | H : exists_in _ _ (_ +:+ "_temp.wav") = false |- _ =>
      rewrite exists_in_own in H
        by (fs_lookup_by ne_ot ne_to; eexists; reflexivity);
      discriminate H
  end.

(** * Facts about strings and paths *)

Example splitext_mp3 :
  OsPath.splitext "/data/My.Talk.MP3" = ("/data/My.Talk", ".MP3").
Proof. reflexivity. Qed.
Example splitext_hidden : OsPath.splitext "dir.d/.bashrc" = ("dir.d/.bashrc", "").
Proof. reflexivity. Qed.
Example splitext_dots : OsPath.splitext "..a.b" = ("..a", ".b").
Proof. reflexivity. Qed.
Example basename_temp : OsPath.basename "/data/talk_temp.wav" = "talk_temp.wav".
Proof. reflexivity. Qed.
Example dirname_data : OsPath.dirname "/data//talk.mp3" = "/data".
Proof. reflexivity. Qed.
Example lower_mp4 (w : World) : str_lower w ".Mp4" = ".mp4".
Proof. reflexivity. Qed.
Example match_gs_uri_examples :
  Re.match_gs_uri "gs://out/a/b.json" = Some ("out", "a/b.json") ∧
  Re.match_gs_uri "gs://out/" = Some ("out", "") ∧
  Re.match_gs_uri "gs:///a" = None ∧
  Re.match_gs_uri "gs://out" = None ∧
  Re.match_gs_uri "s3://out/a" = None.
Proof. repeat split; reflexivity. Qed.

Module PyStrFacts.
Import PyStr.

Lemma append_cons (x : ascii) (a b : string) :
  String x a +:+ b = String x (a +:+ b).
Proof. reflexivity. Qed.

Lemma append_empty_l (b : string) : "" +:+ b = b.
Proof. reflexivity. Qed.

Lemma append_inj_l (s a b : string) : s +:+ a = s +:+ b → a = b.
Proof.
  induction s as [|c s IH]; [auto|].
  rewrite !append_cons. intros [= H]. auto.
Qed.

Lemma append_assoc (a b c : string) : (a +:+ b) +:+ c = a +:+ (b +:+ c).
Proof.
  induction a as [|x a IH]; [reflexivity|].
  rewrite !append_cons. f_equal. exact IH.
Qed.

Lemma append_empty_r (a : string) : a +:+ "" = a.
Proof.
  induction a as [|x a IH]; [reflexivity|].
  rewrite append_cons. f_equal. exact IH.
Qed.

Lemma take_drop (n : nat) (s : string) : take n s +:+ drop n s = s.
Proof.
  revert s. induction n as [|n IH]; intros [|c s]; try reflexivity.
  cbn [take drop]. rewrite append_cons. f_equal. apply IH.
Qed.

Lemma take_app_le (n : nat) (s t : string) :
  (n ≤ String.length s)%nat → take n (s +:+ t) = take n s.
Proof.
  revert s. induction n as [|n IH]; intros [|c s] Hn; cbn in Hn.
  - destruct t; reflexivity.
  - reflexivity.
  - lia.
  - rewrite append_cons. cbn [take]. rewrite IH by lia. reflexivity.
Qed.

Lemma rfind_bounds (c : ascii) (s : string) :
  (-1 ≤ rfind c s < Z.of_nat (String.length s))%Z.
Proof.
  induction s as [|a s IH]; cbn [rfind String.length]; [lia|].
  destruct (Z.leb_spec 0 (rfind c s)); [lia|].
  destruct (Ascii.eqb a c); lia.
Qed.

Lemma rfind_app_absent (c : ascii) (s t : string) :
  contains c t = false → rfind c (s +:+ t) = rfind c s.
Proof.
  intros Ht. induction s as [|a s IH].
  - rewrite append_empty_l.
    induction t as [|b t IHt]; [reflexivity|].
    cbn in Ht. apply orb_false_iff in Ht as [Hb Ht'].
    cbn [rfind]. rewrite (IHt Ht'). cbn. rewrite Hb. reflexivity.
  - rewrite append_cons. cbn [rfind]. rewrite IH. reflexivity.
Qed.

Lemma rfind_absent (c : ascii) (s : string) :
  (rfind c s < 0)%Z → contains c s = false.
Proof.
  induction s as [|a s IH]; [reflexivity|]. cbn [rfind contains].
  destruct (Z.leb_spec 0 (rfind c s)); [lia|].
  destruct (Ascii.eqb a c); [lia|]. intros _. apply IH. lia.
Qed.

(** After the last occurrence of [c] there is no [c]. *)
Lemma drop_after_rfind (c : ascii) (s : string) (n : nat) :
  (rfind c s < Z.of_nat n)%Z → contains c (drop n s) = false.
Proof.
  revert n. induction s as [|a s IH]; intros n Hn.
  - destruct n; reflexivity.
  - destruct n as [|n].
    + apply rfind_absent. cbn [drop]. lia.
    + cbn [drop]. apply IH. cbn [rfind] in Hn.
      destruct (Z.leb_spec 0 (rfind c s)); [lia|].
      pose proof (rfind_bounds c s). lia.
Qed.

(** At the index [rfind] gives, the character is [c]. *)
Lemma drop_at_rfind (c : ascii) (s : string) :
  (0 ≤ rfind c s)%Z →
  ∃ rest, drop (Z.to_nat (rfind c s)) s = String c rest ∧ contains c rest = false.
Proof.
  induction s as [|a s IH]; cbn [rfind]; [lia|].
  destruct (Z.leb_spec 0 (rfind c s)) as [Hr|Hr].
  - intros _. destruct (IH Hr) as (rest & Hd & Hc).
    exists rest. split; [|exact Hc].
    replace (Z.to_nat (rfind c s + 1)) with (S (Z.to_nat (rfind c s))) by lia.
    exact Hd.
  - destruct (Ascii.eqb_spec a c) as [->|Hne]; [|lia].
    intros _. exists s. split; [reflexivity|].
    replace s with (drop 0 s) by (destruct s; reflexivity).
    apply drop_after_rfind. lia.
Qed.

End PyStrFacts.

Module OsPathFacts.
Import PyStr OsPath PyStrFacts.

Lemma splitext_app (p base ext : string) :
  splitext p = (base, ext) → p = base +:+ ext.
Proof.
  unfold splitext, slice_to, slice_from.
  destruct (_ && _); intros [= <- <-].
  - symmetry. apply take_drop.
  - symmetry. apply append_empty_r.
Qed.

Lemma splitext_ext (p base ext : string) :
  splitext p = (base, ext) →
  ext = "" ∨
  ∃ name, ext = String "." name ∧ contains "." name = false
          ∧ contains "/" ext = false.
Proof.
  unfold splitext, slice_to, slice_from.
  destruct (Z.ltb_spec (rfind "/" p) (rfind "." p)) as [Hlt|Hge];
    cbn [andb]; [|intros [= <- <-]; by left].
  destruct (nondot_before _ _ _); intros [= <- <-]; [|by left].
  right.
  pose proof (rfind_bounds "/" p) as Hsep.
  destruct (drop_at_rfind "." p) as (name & Hd & Hname); [lia|].
  exists name. split; [exact Hd|]. split; [exact Hname|].
  apply drop_after_rfind. lia.
Qed.

(** The directory of a path does not depend on what follows its last
    slash. *)
Lemma dirname_app (base a b : string) :
  contains "/" a = false → contains "/" b = false →
  dirname (base +:+ a) = dirname (base +:+ b).
Proof.
  intros Ha Hb. unfold dirname, slice_to.
  rewrite !rfind_app_absent by assumption.
  pose proof (rfind_bounds "/" base).
  rewrite !take_app_le by lia. reflexivity.
Qed.

End OsPathFacts.

Module ReFacts.
Import PyStr Re PyStrFacts.

Lemma literal_spec (lit s rest : string) :
  literal lit s = Some rest ↔ s = lit +:+ rest.
Proof.
  revert s. induction lit as [|a lit IH]; intros s.
  - rewrite append_empty_l. destruct s; cbn; split; congruence.
  - destruct s as [|b s]; cbn [literal]; rewrite append_cons.
    + split; discriminate.
    + destruct (Ascii.eqb_spec a b) as [->|Hne].
      * rewrite IH. split; [intros ->; reflexivity | intros [= ->]; reflexivity].
      * split; [discriminate | intros [= -> _]; congruence].
Qed.

Lemma span_not_spec (c : ascii) (s run rest : string) :
  span_not c s = (run, rest) ↔
  s = run +:+ rest ∧ contains c run = false ∧ stops_at c rest.
Proof.
  unfold stops_at. revert run rest. induction s as [|a s IH]; intros run rest.
  - cbn [span_not]. split.
    + intros [= <- <-]. auto.
    + intros (Hs & _ & _). destruct run; [|discriminate Hs].
      rewrite append_empty_l in Hs. by subst.
  - cbn [span_not]. destruct (Ascii.eqb_spec a c) as [->|Hne].
    + split.
      * intros [= <- <-]. eauto.
      * intros (Hs & Hrun & Hstop). destruct run as [|b run].
        -- rewrite append_empty_l in Hs. by subst.
        -- rewrite append_cons in Hs. injection Hs as <- _.
           cbn in Hrun. rewrite Ascii.eqb_refl in Hrun. discriminate Hrun.
    + destruct (span_not c s) as [run' rest'] eqn:Hspan.
      split.
      * intros [= <- <-].
        destruct (proj1 (IH run' rest') eq_refl) as (-> & Hrun' & Hstop').
        rewrite append_cons. cbn [contains].
        apply Ascii.eqb_neq in Hne. rewrite Hne. auto.
      * intros (Hs & Hrun & Hstop). destruct run as [|b run].
        -- rewrite append_empty_l in Hs. subst rest.
           destruct Hstop as [?|[r [= ? ?]]]; congruence.
        -- rewrite append_cons in Hs. injection Hs as <- Hs.
           cbn in Hrun. apply orb_false_iff in Hrun as [_ Hrun].
           assert (Heq : (run', rest') = (run, rest))
             by (apply IH; auto).
           by injection Heq as <- <-.
Qed.

(** The pattern accepts exactly the addresses [gs://bucket/object...]: a
    bucket without a slash and not empty, an object that runs up to the end
    of the first line. *)
Lemma match_gs_uri_spec (s bucket object : string) :
  match_gs_uri s = Some (bucket, object) ↔
  ∃ rest,
    s = "gs://" +:+ bucket +:+ "/" +:+ object +:+ rest ∧
    bucket ≠ "" ∧ contains "/" bucket = false ∧
    contains newline object = false ∧ stops_at newline rest.
Proof.
  unfold match_gs_uri. split.
  - destruct (literal "gs://" s) as [s1|] eqn:H1; [|discriminate].
    apply literal_spec in H1 as ->.
    destruct (span_not "/" s1) as [g1 s2] eqn:H2.
    apply span_not_spec in H2 as (-> & Hg1 & _).
    destruct g1 as [|x g1]; [discriminate|].
    destruct (literal "/" s2) as [s3|] eqn:H3; [|discriminate].
    apply literal_spec in H3 as ->.
    destruct (span_not newline s3) as [g2 rest] eqn:H4.
    apply span_not_spec in H4 as (-> & Hg2 & Hstop).
    intros [= <- <-]. exists rest. repeat split; auto.
  - intros (rest & -> & Hne & Hb & Ho & Hstop).
    rewrite (proj2 (literal_spec "gs://" _ _) eq_refl).
    rewrite (proj2 (span_not_spec "/" _ bucket ("/" +:+ object +:+ rest))).
    2:{ repeat split; auto. right. eexists. reflexivity. }
    destruct bucket as [|x bucket]; [congruence|].
    rewrite (proj2 (literal_spec "/" _ _) eq_refl).
    rewrite (proj2 (span_not_spec newline _ object rest)); [reflexivity|].
    repeat split; auto.
Qed.

(** The addresses of the form gs://bucket/object are those the pattern
    matches, and the two groups of the match are the bucket and the
    object. *)
Lemma gs_address_match (s bucket object : string) :
  gs_address s bucket object ↔ match_gs_uri s = Some (bucket, object).
Proof. symmetry. apply match_gs_uri_spec. Qed.

End ReFacts.


(** * Facts about the loop over the segments *)

Section Join.
Variable w : World.

Lemma join_transcripts_ok (document : list SpeechRecognitionResult)
    (transcript : string) :
  Forall (fun segment => alternatives segment ≠ []) document →
  join_transcripts w document transcript
  = Ok (transcript +:+ transcript_of document).
Proof.
  intros Hall. revert transcript.
  induction Hall as [|segment rest Hseg _ IH]; intros transcript.
  - cbn [join_transcripts transcript_of]. by rewrite PyStrFacts.append_empty_r.
  - cbn [join_transcripts transcript_of]. unfold line_of.
    destruct (alternatives segment) as [|alternative0 others]; [congruence|].
    rewrite IH. by rewrite PyStrFacts.append_assoc.
Qed.

Lemma join_transcripts_raise (document : list SpeechRecognitionResult)
    (transcript : string) :
  Exists (fun segment => alternatives segment = []) document →
  join_transcripts w document transcript
  = Raise (Exn IndexError (index_error_text w)).
Proof.
  revert transcript.
  induction document as [|segment rest IH]; intros transcript Hex.
  - inversion Hex.
  - cbn [join_transcripts].
    destruct (alternatives segment) as [|alternative0 others] eqn:Halt;
      [reflexivity|].
    apply IH. inversion Hex as [? ? Hhere|? ? Hthere]; subst; [congruence|assumption].
Qed.
End Join.

(** * Facts about the paths of a run *)

Lemma temp_not_output (base : string) : base +:+ "_temp.wav" ≠ base +:+ ".txt".
Proof. intros H. apply PyStrFacts.append_inj_l in H. discriminate H. Qed.

Lemma output_not_temp (base : string) : base +:+ ".txt" ≠ base +:+ "_temp.wav".
Proof. intros H. apply PyStrFacts.append_inj_l in H. discriminate H. Qed.

Lemma full_progress_increasing : StronglySorted Z.lt full_progress.
Proof. unfold full_progress. repeat constructor; lia. Qed.

Lemma operation_result_timeout (w : World) (op : Operation) (timeout : Z) :
  (∀ d, seconds_to_done op = Some d → (timeout < d)%Z) →
  operation_result w op timeout
  = Raise (Exn TimeoutError (timeout_text w timeout)).
Proof.
  intros Hslow. unfold operation_result.
  destruct (seconds_to_done op) as [d|]; [|reflexivity].
  specialize (Hslow d eq_refl).
  destruct (Z.leb_spec d (Z.min timeout (last_poll w timeout)));
    [lia | reflexivity].
Qed.

Lemma supported_ext_not_empty (w : World) (input_file : string) :
  supported w input_file → snd (OsPath.splitext input_file) ≠ "".
Proof.
  unfold supported. cbv zeta. intros Hsup Hempty. rewrite Hempty in Hsup.
  destruct Hsup as [H | H];
    pose proof (bool_decide_eq_true_2 _ H) as Hb;
    vm_compute in Hb; discriminate Hb.
Qed.

(** The output path replaces the extension of a supported input and stays
    in its directory. *)
Lemma output_path_replaces_extension (w : World) (input_file : string) :
  supported w input_file →
  ∃ base name,
    input_file = base +:+ String "." name ∧
    PyStr.contains "." name = false ∧
    PyStr.contains "/" name = false ∧
    output_path input_file = base +:+ ".txt" ∧
    OsPath.dirname (output_path input_file) = OsPath.dirname input_file.
Proof.
  intros Hsup. apply supported_ext_not_empty in Hsup.
  unfold output_path.
  destruct (OsPath.splitext input_file) as [base ext] eqn:Hsplit.
  cbn [fst snd] in *.
  pose proof (OsPathFacts.splitext_app _ _ _ Hsplit) as Happ.
  destruct (OsPathFacts.splitext_ext _ _ _ Hsplit)
    as [Hempty | (name & -> & Hdot & Hslash)]; [congruence|].
  exists base, name. split; [exact Happ|]. split; [exact Hdot|].
  cbn [PyStr.contains] in Hslash.
  apply orb_false_iff in Hslash as [_ Hslash]. split; [exact Hslash|].
  split; [reflexivity|].
  rewrite Happ. apply OsPathFacts.dirname_app; [reflexivity|].
  cbn [PyStr.contains]. rewrite Hslash. reflexivity.
Qed.

(** * The claims *)

(** C1, as amended.  Every request the run submits to the recognition
    service carries the language code id-ID, the model long and automatic
    detection of the encoding, which are constants of the code and the same
    under every configuration; the recognizer is built from the project of
    the credentials, and these are loaded from the path that the setting
    GOOGLE_APPLICATION_CREDENTIALS of the configuration supplies. *)
Theorem C1_request_constants (w : World) (input_file : string)
    (fs0 : gmap string content) (request : BatchRecognizeRequest) :
  CallBatchRecognize request ∈ trace (run w input_file (start fs0)) →
  language_codes (config request) = ["id-ID"] ∧
  model (config request) = "long" ∧
  auto_decoding_config (config request) = true ∧
  ∃ credential_path credentials,
    environ w !! "GOOGLE_APPLICATION_CREDENTIALS" = Some credential_path ∧
    from_service_account_file w credential_path = Ok credentials ∧
    recognizer request =
      "projects/" +:+ project_id credentials +:+ "/locations/global/recognizers/_".
Proof.
  intros Hin.
  run_paths w input_file fs0.
  all: elem_inv Hin.
  all: simplify_eq.
  all: cbn.
  all: repeat split.
  all: eexists _, _; repeat split; eauto.
Qed.

(** C2.  When the run downloads a results document in which every segment
    has an alternative, and the output file can be opened, it writes to the
    output path exactly the transcript of the document: for each segment in
    order its first alternative and a newline, nothing before and nothing
    after, as a text file in UTF-8.  It is the only text file the run
    writes, and it is what the output path holds at the end.  For the
    segments hello and world the text is the two lines hello and world. *)
Theorem C2_transcript_file (w : World) (input_file : string)
    (fs0 : gmap string content) (bucket blob bytes : string)
    (document : list SpeechRecognitionResult) :
  let final := run w input_file (start fs0) in
  let output_file := output_path input_file in
  CallDownload bucket blob ∈ trace final →
  download_as_bytes w bucket blob = Ok bytes →
  from_json w bytes = Ok document →
  Forall (fun segment => alternatives segment ≠ []) document →
  open_for_writing w output_file = Ok tt →
  FileWritten output_file (Text "utf-8" (transcript_of document)) ∈ trace final ∧
  (∀ path encoding text,
     FileWritten path (Text encoding text) ∈ trace final →
     path = output_file ∧ encoding = "utf-8" ∧ text = transcript_of document) ∧
  fs final !! output_file = Some (Text "utf-8" (transcript_of document)) ∧
  transcript_of [segment "hello"; segment "world"]
  = "hello" +:+ String Re.newline ("world" +:+ String Re.newline "").
Proof.
  unfold output_path. cbv zeta. intros Hin Hbytes Hdoc Hall Hopen.
  pose proof (join_transcripts_ok w document "" Hall) as Hjoin.
  rewrite PyStrFacts.append_empty_l in Hjoin.
  run_paths w input_file fs0.
  all: elem_inv Hin.
  all: injection Hin as <- <-.
  all: cbn [fst] in Hopen.
  all: same_answer Hbytes.
  all: same_answer Hdoc.
  all: same_answer Hjoin.
  all: same_answer Hopen.
  all: split; [elem_solve|].
  all: split;
    [ intros path encoding text Hw; elem_inv Hw;
      injection Hw as -> -> ->; auto |].
  all: split; [|reflexivity].
  all: rewrite ?lookup_delete_ne by apply temp_not_output.
  all: apply lookup_insert_eq.
Qed.

(** C3.  The signals of every run are progress values followed by one final
    signal.  When the final signal is [finished] the values are exactly
    5, 33, 40, 42, 50, 55, 75, 90, 100, a strictly increasing sequence;
    otherwise the final signal is [error] and the values are a prefix of
    that sequence. *)
Theorem C3_progress_sequence (w : World) (input_file : string)
    (fs0 : gmap string content) :
  let t := trace (run w input_file (start fs0)) in
  StronglySorted Z.lt full_progress ∧
  ∃ values final,
    signals t = map Progress values ++ [final] ∧
    progress_values t = values ∧
    ((∃ msg, final = Finished msg ∧ values = full_progress) ∨
     (∃ msg, final = Error msg ∧ values `prefix_of` full_progress)).
Proof.
  cbv zeta. split; [apply full_progress_increasing|].
  run_paths w input_file fs0.
  all: cbn [signals List.filter is_signal progress_values omap progress_of
            list_omap].
  all: lazymatch goal with |- ∃ d f, _ ∧ ?pv = d ∧ _ => exists pv end.
  all: eexists; split; [reflexivity|]; split; [reflexivity|].
  all: first [ left; eexists; split; reflexivity
             | right; eexists; split; [reflexivity|];
               unfold full_progress;
               repeat first [apply prefix_nil | apply prefix_cons] ].
Qed.

(** C4, as amended.  When the configuration has no credential path, an
    empty one, or one that leads to no file (to none that is there before
    the run, and not to the temporary waveform the run itself writes), the
    run never asks for the credentials and never uploads anything; and when
    its normalization stage has completed (progress 33 was emitted) it fails
    with the missing credential error right after it. *)
Theorem C4_missing_credential (w : World) (input_file : string)
    (fs0 : gmap string content) :
  credential_absent w fs0 input_file →
  let t := trace (run w input_file (start fs0)) in
  (∀ bucket blob filename, CallUpload bucket blob filename ∉ t) ∧
  (∀ path, CallCredentials path ∉ t) ∧
  (Progress 33 ∈ t →
   signals t = [Progress 5; Progress 33;
                Error "Missing or invalid GCP credentials file."]).
Proof.
  unfold credential_absent, temp_path. cbv zeta. intros Habsent.
  run_paths w input_file fs0.
  all: match goal with
       | H : OsPath.splitext _ = _ |- _ => rewrite H in Habsent
       | _ => idtac
       end; cbn [fst] in Habsent.
  all: match goal with
       | H : environ _ !! _ = _ |- _ => rewrite H in Habsent
       | _ => idtac
       end.
  all: try (destruct Habsent as [Habsent | [Hnone Hnot]];
            [ discriminate Habsent
            | match goal with
              | H : exists_in _ (<[_ := _]> _) _ = true |- _ =>
                  rewrite (exists_in_insert _ _ _ _ _ Hnot) in H; congruence
              end ]).
  all: split; [intros bucket blob filename; not_elem|].
  all: split; [intros path; not_elem|].
  all: intros H33; try reflexivity; elem_inv H33.
Qed.

(** C5.  When the job completes and reports an address for the staged
    input: if the address has the form gs://bucket/object (a bucket that is
    not empty and has no slash, an object that runs to the end of the line)
    the run downloads, and the only download it makes is of that bucket and
    that object, the two parts of the address; if the address has that form
    for no bucket and no object, the run fails with the output address
    error right after progress 75 and downloads nothing. *)
Theorem C5_output_address (w : World) (input_file : string)
    (fs0 : gmap string content) (request : BatchRecognizeRequest)
    (operation : Operation) (response : BatchRecognizeResponse)
    (audio_uri : string) (file_results : BatchRecognizeFileResult) :
  let t := trace (run w input_file (start fs0)) in
  CallBatchRecognize request ∈ t →
  batch_recognize w request = Ok operation →
  operation_result w operation 3600 = Ok response →
  files request = [audio_uri] →
  results response !! audio_uri = Some file_results →
  file_result_truthy file_results = true →
  (∀ bucket_name object_name,
     gs_address (uri file_results) bucket_name object_name →
     CallDownload bucket_name object_name ∈ t ∧
     (∀ bucket blob, CallDownload bucket blob ∈ t →
                     bucket = bucket_name ∧ blob = object_name)) ∧
  ((∀ bucket_name object_name,
      ¬ gs_address (uri file_results) bucket_name object_name) →
   (∃ before, t = before ++ [Progress 75; Error "Failed to parse output URI."]) ∧
   (∀ bucket blob, CallDownload bucket blob ∉ t)).
Proof.
  cbv zeta. intros Hin Hop Hres Hfiles Hget Htruthy.
  run_paths w input_file fs0.
  all: elem_inv Hin.
  all: injection Hin as Hreq; subst request.
  all: cbn [files] in Hfiles; injection Hfiles as <-.
  all: same_answer Hop.
  all: same_answer Hres.
  all: same_answer Hget.
  all: try (rewrite Htruthy in *; discriminate).
  all: match goal with H : Re.match_gs_uri _ = _ |- _ => rename H into Hmatch end.
  all: split;
    [ intros bucket_name object_name Hshape;
      apply ReFacts.gs_address_match in Hshape;
      rewrite Hmatch in Hshape; try discriminate Hshape;
      injection Hshape as <- <-
    | intros Hnone;
      try (exfalso; eapply Hnone; apply ReFacts.gs_address_match; exact Hmatch) ].
  all: try (split; [ends_with | intros bucket blob; not_elem]).
  all: split; [elem_solve|].
  all: intros bucket blob Hd; elem_inv Hd; injection Hd as <- <-; split; reflexivity.
Qed.

(** C6, as amended.  When the extension of the input, lowered, is in
    neither extension set, the run leaves the file system as it was, and
    its signals are progress 5 and the unsupported file error, or the error
    of the import alone when the imports at the head of the run fail.  When
    the imports succeed, the extension is in one of the sets, the decoder
    opens the clip and the encoder succeeds, the run asks for a 16000 Hz
    pcm_s16le file at the temporary path and that is what is written there,
    with the number of channels of the decoded clip: the code asks for no
    channel count, so the file is mono only when the clip is.  Progress 33
    follows once the clip is closed. *)
Theorem C6_normalization (w : World) (input_file : string)
    (fs0 : gmap string content) :
  let final := run w input_file (start fs0) in
  let t := trace final in
  let temp := temp_path input_file in
  (¬ supported w input_file →
   final =
     {| fs := fs0;
        trace := [Progress 5;
                  Error "Unsupported file type. Please select a valid audio or video file."] |}
   ∨ ∃ e, imports w = Raise e ∧
          final = {| fs := fs0; trace := [Error (exn_str e)] |}) ∧
  (∀ clip,
     decoded_clip w input_file = Some clip →
     write_audiofile w clip temp = Written →
     supported w input_file ∧
     [Progress 5;
      CallWriteAudio (clip_source clip) temp 16000 "pcm_s16le"
        ["-preset"; "ultrafast"];
      FileWritten temp (Wave 16000 "pcm_s16le" (nchannels clip))] `prefix_of` t ∧
     (clip_close w input_file = Ok tt →
      [Progress 5;
       CallWriteAudio (clip_source clip) temp 16000 "pcm_s16le"
         ["-preset"; "ultrafast"];
       FileWritten temp (Wave 16000 "pcm_s16le" (nchannels clip));
       Progress 33] `prefix_of` t) ∧
     (∀ written, FileWritten temp written ∈ t →
           written = Wave 16000 "pcm_s16le" (nchannels clip))).
Proof.
  unfold supported, decoded_clip, temp_path. cbv zeta.
  run_paths w input_file fs0.
  all: cbn [fst snd].
  all: split;
    [ intros Hunsupported;
      try (exfalso; apply Hunsupported; ext_case);
      first [ left; reflexivity
            | right; eexists; split; reflexivity ]
    | intros clip Hclip Hwritten ].
  all: repeat match goal with
       | H : bool_decide _ = _ |- _ => rewrite H in Hclip
       | H : VideoFileClip _ _ = _ |- _ => rewrite H in Hclip
       | H : AudioFileClip _ _ = _ |- _ => rewrite H in Hclip
       end.
  all: try discriminate Hclip.
  all: try (match goal with H : audio _ = _ |- _ => rewrite H in Hclip end).
  all: try discriminate Hclip.
  all: injection Hclip as <-.
  all: try (same_answer Hwritten).
  all: (split; [ ext_case |]).
  all: (split; [ eexists; reflexivity |]).
  all: split;
    [ intros Hclose; try discriminate Hclose; eexists; reflexivity |].
  all: intros written Hc; elem_inv Hc.
  all: try (injection Hc as Hp _; destruct (temp_not_output _ Hp)).
  all: congruence.
Qed.

(** C7.  When the submitted job has not reached a terminal state after 3600
    seconds, the wait raises [TimeoutError]: the run ends with progress 55,
    the call of [result] with the timeout 3600 and the error signal of the
    timeout; it emits no progress 75 and downloads nothing, and what the job
    would eventually yield has no part in the answer of the wait. *)
Theorem C7_job_timeout (w : World) (input_file : string)
    (fs0 : gmap string content) (request : BatchRecognizeRequest)
    (operation : Operation) :
  CallBatchRecognize request ∈ trace (run w input_file (start fs0)) →
  batch_recognize w request = Ok operation →
  (∀ d, seconds_to_done operation = Some d → (3600 < d)%Z) →
  let t := trace (run w input_file (start fs0)) in
  (∃ before : list Event,
     t = before ++ [Progress 55; CallResult 3600; Error (timeout_text w 3600)]) ∧
  (∃ st', run_body w input_file (start fs0)
          = (Raised (Exn TimeoutError (timeout_text w 3600)), st')) ∧
  (Progress 75 ∉ t) ∧
  (∀ bucket blob, CallDownload bucket blob ∉ t) ∧
  (∀ outcome,
     operation_result w
       {| seconds_to_done := seconds_to_done operation;
          terminal_outcome := outcome |} 3600
     = Raise (Exn TimeoutError (timeout_text w 3600))).
Proof.
  intros Hin Hop Hslow. cbv zeta.
  pose proof (operation_result_timeout w operation 3600 Hslow) as Hres.
  assert (Hany : ∀ outcome,
     operation_result w
       {| seconds_to_done := seconds_to_done operation;
          terminal_outcome := outcome |} 3600
     = Raise (Exn TimeoutError (timeout_text w 3600))).
  { intros outcome. apply operation_result_timeout. exact Hslow. }
  run_paths w input_file fs0.
  all: elem_inv Hin.
  all: injection Hin as Hreq; subst request.
  all: match goal with
       | H : batch_recognize _ _ = _ |- _ =>
           rewrite Hop in H; (discriminate H || injection H as <-)
       end.
  all: match goal with
       | H : operation_result _ _ _ = _ |- _ =>
           rewrite Hres in H; (discriminate H || injection H as <-)
       end.
  all: cbn [exn_str].
  all: split; [ends_with|].
  all: split; [eexists; reflexivity|].
  all: split; [not_elem|].
  all: split; [intros bucket blob; not_elem|].
  all: exact Hany.
Qed.

(** C8.  A run succeeds exactly when it removes the temporary waveform
    file; then nothing is left at the temporary path.  A run that does not
    remove it leaves there what it wrote there, if it wrote anything, and
    otherwise what was there before the run. *)
Theorem C8_temporary_file (w : World) (input_file : string)
    (fs0 : gmap string content) :
  let final := run w input_file (start fs0) in
  let temp := temp_path input_file in
  (succeeded (trace final) ↔ FileRemoved temp ∈ trace final) ∧
  (FileRemoved temp ∈ trace final → fs final !! temp = None) ∧
  (FileRemoved temp ∉ trace final →
   (∀ written, FileWritten temp written ∈ trace final →
               fs final !! temp = Some written) ∧
   ((∀ written, FileWritten temp written ∉ trace final) →
    fs final !! temp = fs0 !! temp)).
Proof.
  unfold temp_path, succeeded. cbv zeta.
  run_paths w input_file fs0.
  all: cbn [fst].
  all: temp_still_there_by output_not_temp temp_not_output.
  all: split;
    [ split;
      [ intros [msg Hfin]; elem_inv Hfin; elem_solve
      | intros Hrm; elem_inv Hrm; eexists; elem_solve ] |].
  all: split; [ intros Hrm; elem_inv Hrm; fs_lookup_by output_not_temp temp_not_output; reflexivity |].
  all: intros Hkept.
  all: try (exfalso; apply Hkept; elem_solve).
  all: split;
    [ intros written Hw; elem_inv Hw;
      try (injection Hw as Hp _; destruct (temp_not_output _ Hp));
      injection Hw as ->; fs_lookup_by output_not_temp temp_not_output; reflexivity
    | intros Hnone;
      try (exfalso; eapply Hnone; elem_solve);
      reflexivity ].
Qed.

(** C9.  When the run downloads a results document in which some segment
    has no alternative, it ends with the error signal that carries the text
    of the [IndexError], right after the download; it does not succeed,
    writes no text file, and leaves the output path as it was. *)
Theorem C9_segment_without_alternative (w : World) (input_file : string)
    (fs0 : gmap string content) (bucket blob bytes : string)
    (document : list SpeechRecognitionResult) :
  let final := run w input_file (start fs0) in
  CallDownload bucket blob ∈ trace final →
  download_as_bytes w bucket blob = Ok bytes →
  from_json w bytes = Ok document →
  Exists (fun segment => alternatives segment = []) document →
  (∃ before,
     trace final
     = before ++ [CallDownload bucket blob; Error (index_error_text w)]) ∧
  ¬ succeeded (trace final) ∧
  (∀ path encoding text, FileWritten path (Text encoding text) ∉ trace final) ∧
  fs final !! output_path input_file = fs0 !! output_path input_file.
Proof.
  unfold output_path, succeeded. cbv zeta. intros Hin Hbytes Hdoc Hex.
  pose proof (join_transcripts_raise w document "" Hex) as Hjoin.
  run_paths w input_file fs0.
  all: elem_inv Hin.
  all: injection Hin as <- <-.
  all: same_answer Hbytes.
  all: same_answer Hdoc.
  all: same_answer Hjoin.
  all: cbn [exn_str fst].
  all: split; [ends_with|].
  all: split; [intros [msg Hfin]; elem_inv Hfin|].
  all: split; [intros path encoding text; not_elem|].
  all: apply lookup_insert_ne, temp_not_output.
Qed.

(** C10.  A run that succeeds has written its transcript to the output
    path.  Every text file a run writes is at the output path, which is the
    input path with its extension replaced by .txt (the input is a base and
    an extension made of a dot and a name without dot or slash, the output
    is the base and .txt), in the directory of the input; and the path
    holds the transcript afterwards whatever it held before. *)
Theorem C10_output_path (w : World) (input_file : string)
    (fs0 : gmap string content) :
  let final := run w input_file (start fs0) in
  (succeeded (trace final) →
   ∃ text, FileWritten (output_path input_file) (Text "utf-8" text)
             ∈ trace final) ∧
  (∀ path encoding text,
     FileWritten path (Text encoding text) ∈ trace final →
     path = output_path input_file ∧
     fs final !! path = Some (Text encoding text) ∧
     ∃ base name,
       input_file = base +:+ String "." name ∧
       PyStr.contains "." name = false ∧
       PyStr.contains "/" name = false ∧
       path = base +:+ ".txt" ∧
       OsPath.dirname path = OsPath.dirname input_file).
Proof.
  cbv zeta.
  assert (Hrep : ∀ path, supported w input_file → path = output_path input_file →
     ∃ base name,
       input_file = base +:+ String "." name ∧
       PyStr.contains "." name = false ∧
       PyStr.contains "/" name = false ∧
       path = base +:+ ".txt" ∧
       OsPath.dirname path = OsPath.dirname input_file).
  { intros path Hsup ->. eapply output_path_replaces_extension, Hsup. }
  revert Hrep. unfold supported, output_path, succeeded. cbv zeta.
  run_paths w input_file fs0.
  all: cbn [fst snd].
  all: intros Hrep.
  all: split;
    [ intros [msg Hfin]; elem_inv Hfin; eexists; elem_solve
    | intros path encoding text Hw; elem_inv Hw ].
  all: injection Hw as -> -> ->.
  all: split; [reflexivity|].
  all: split; [fs_lookup_by output_not_temp temp_not_output; reflexivity|].
  all: apply Hrep; [ext_case | reflexivity].
Qed.

(** * Witnesses and counterexamples *)

Lemma not_supplied_by_sample_env (v : string) :
  v ≠ "key.json" → v ≠ "in" → v ≠ "out" →
  ¬ supplied_by_configuration sample_world v.
Proof.
  intros H1 H2 H3 [key H].
  change (environ sample_world) with sample_env in H. unfold sample_env in H.
  rewrite !lookup_insert_Some, lookup_singleton_Some in H.
  destruct H as [[_ H] | [_ [[_ H] | [_ [_ H]]]]]; congruence.
Qed.

(** C1, as the claim states it, fails: under a configuration that names the
    containers in and out, the run stages its input in, and asks for its
    output in, the container speech_to_text_python, with the language id-ID
    and the model long; the configuration supplies none of the three. *)
Lemma C1_counterexample :
  let t := trace (run sample_world "sample.mp3" (start sample_fs)) in
  environ sample_world !! "GCS_INPUT_BUCKET" = Some "in" ∧
  environ sample_world !! "GCS_OUTPUT_BUCKET" = Some "out" ∧
  CallUpload "speech_to_text_python" "sample_temp.wav-0a1b.wav" "sample_temp.wav" ∈ t ∧
  CallBatchRecognize sample_request ∈ t ∧
  bucket_of (recognition_output_config sample_request)
    = Some "speech_to_text_python" ∧
  language_codes (config sample_request) = ["id-ID"] ∧
  model (config sample_request) = "long" ∧
  ¬ supplied_by_configuration sample_world "speech_to_text_python" ∧
  ¬ supplied_by_configuration sample_world "id-ID" ∧
  ¬ supplied_by_configuration sample_world "long".
Proof.
  cbv zeta. eval_trace.
  repeat split; try reflexivity; try elem_solve.
  all: apply not_supplied_by_sample_env; discriminate.
Qed.

Lemma C1_request_constants_witness :
  language_codes (config sample_request) = ["id-ID"] ∧
  model (config sample_request) = "long" ∧
  auto_decoding_config (config sample_request) = true ∧
  ∃ credential_path credentials,
    environ sample_world !! "GOOGLE_APPLICATION_CREDENTIALS" = Some credential_path ∧
    from_service_account_file sample_world credential_path = Ok credentials ∧
    recognizer sample_request =
      "projects/" +:+ project_id credentials +:+ "/locations/global/recognizers/_".
Proof.
  apply (C1_request_constants sample_world "sample.mp3" sample_fs sample_request).
  eval_trace. elem_solve.
Defined.

Lemma C2_transcript_file_witness :
  fs (run hello_world "sample.mp3" (start sample_fs)) !! "sample.txt"
  = Some (Text "utf-8"
            ("hello" +:+ String Re.newline ("world" +:+ String Re.newline ""))).
Proof.
  refine (proj1 (proj2 (proj2
    (C2_transcript_file hello_world "sample.mp3" sample_fs
       "out" "transcript-2c3d.json" "{}" [segment "hello"; segment "world"]
       _ eq_refl eq_refl _ eq_refl)))).
  - eval_trace. elem_solve.
  - repeat constructor; discriminate.
Defined.

(** C4, as the claim states it, fails: without any credential setting, a
    run on an input with an unsupported extension fails with the
    unsupported file error, not with the missing credential error. *)
Lemma C4_counterexample :
  credential_absent unconfigured_world sample_fs "notes.xyz" ∧
  trace (run unconfigured_world "notes.xyz" (start sample_fs)) =
    [Progress 5;
     Error "Unsupported file type. Please select a valid audio or video file."].
Proof. split; [exact I | reflexivity]. Qed.

(** A credential setting that leads to no file. *)
Lemma C4_missing_credential_witness :
  signals
    (trace (run (with_environ
                   {[ "GOOGLE_APPLICATION_CREDENTIALS" := "missing.json" ]}
                   sample_world)
              "sample.mp3" (start sample_fs))) =
    [Progress 5; Progress 33; Error "Missing or invalid GCP credentials file."].
Proof.
  apply (C4_missing_credential
           (with_environ {[ "GOOGLE_APPLICATION_CREDENTIALS" := "missing.json" ]}
              sample_world)
           "sample.mp3" sample_fs).
  - right. split; [reflexivity|].
    change ("sample_temp.wav" ∉ ["missing.json"]). not_elem.
  - eval_trace. elem_solve.
Defined.

Lemma C5_output_address_witness :
  let t := trace (run sample_world "sample.mp3" (start sample_fs)) in
  CallDownload "out" "transcript-2c3d.json" ∈ t ∧
  (∀ bucket blob, CallDownload bucket blob ∈ t →
                  bucket = "out" ∧ blob = "transcript-2c3d.json").
Proof.
  refine (proj1
    (C5_output_address sample_world "sample.mp3" sample_fs sample_request
       (sample_operation (Some 120%Z) "gs://out/transcript-2c3d.json")
       (sample_response "gs://out/transcript-2c3d.json")
       sample_audio_uri
       {| uri := "gs://out/transcript-2c3d.json"; other_field_set := false |}
       _ eq_refl eq_refl eq_refl eq_refl eq_refl)
    "out" "transcript-2c3d.json" _).
  - eval_trace. elem_solve.
  - exists "". split; [reflexivity|]. split; [discriminate|].
    split; [reflexivity|]. split; [reflexivity|]. left. reflexivity.
Defined.

(** C6, as the claim states it, fails: the input has a supported extension
    and its clip is stereo; the file written at the temporary path is a
    16000 Hz pcm_s16le file with two channels, and no mono file is written
    there. *)
Lemma C6_counterexample :
  supported sample_world "sample.mp3" ∧
  FileWritten "sample_temp.wav" (Wave 16000 "pcm_s16le" 2)
    ∈ trace (run sample_world "sample.mp3" (start sample_fs)) ∧
  ¬ (∃ fps codec,
       FileWritten (temp_path "sample.mp3") (Wave fps codec 1)
         ∈ trace (run sample_world "sample.mp3" (start sample_fs))).
Proof.
  split; [|split].
  - right. refine (bool_decide_unpack _ _). vm_compute. exact I.
  - eval_trace. elem_solve.
  - intros (fps & codec & H). eval_trace.
    change (temp_path "sample.mp3") with "sample_temp.wav" in H.
    elem_inv H.
Qed.

Lemma C6_normalization_witness :
  [Progress 5;
   CallWriteAudio "sample.mp3" "sample_temp.wav" 16000 "pcm_s16le"
     ["-preset"; "ultrafast"];
   FileWritten "sample_temp.wav" (Wave 16000 "pcm_s16le" 2);
   Progress 33]
    `prefix_of` trace (run sample_world "sample.mp3" (start sample_fs)).
Proof.
  refine (proj1 (proj2 (proj2
    (proj2 (C6_normalization sample_world "sample.mp3" sample_fs)
       {| clip_source := "sample.mp3"; nchannels := 2 |} _ _))) _).
  - vm_compute. reflexivity.
  - reflexivity.
  - reflexivity.
Defined.

Lemma C7_job_timeout_witness :
  ∃ before,
    trace (run slow_world "sample.mp3" (start sample_fs))
    = before ++ [Progress 55; CallResult 3600;
                 Error "Operation did not complete within the designated timeout."].
Proof.
  refine (proj1
    (C7_job_timeout slow_world "sample.mp3" sample_fs sample_request
       (sample_operation (Some 7200%Z) "gs://out/transcript-2c3d.json")
       _ eq_refl _)).
  - eval_trace. elem_solve.
  - intros d [= <-]. lia.
Defined.

Lemma C8_temporary_file_witness :
  fs (run sample_world "sample.mp3" (start sample_fs)) !! "sample_temp.wav" = None.
Proof.
  refine (proj1 (proj2
    (C8_temporary_file sample_world "sample.mp3" sample_fs)) _).
  eval_trace. change (temp_path "sample.mp3") with "sample_temp.wav".
  elem_solve.
Defined.

Lemma C9_segment_without_alternative_witness :
  ∃ before,
    trace (run empty_segment_world "sample.mp3" (start sample_fs))
    = before ++ [CallDownload "out" "transcript-2c3d.json";
                 Error "list index out of range"].
Proof.
  refine (proj1
    (C9_segment_without_alternative empty_segment_world "sample.mp3" sample_fs
       "out" "transcript-2c3d.json" "{}"
       [segment "hello"; {| alternatives := [] |}; segment "world"]
       _ eq_refl eq_refl _)).
  - eval_trace. elem_solve.
  - apply Exists_cons_tl, Exists_cons_hd. reflexivity.
Defined.

Lemma C10_output_path_witness :
  ∃ text,
    FileWritten "sample.txt" (Text "utf-8" text)
      ∈ trace (run sample_world "sample.mp3" (start sample_fs)).
Proof.
  refine (proj1 (C10_output_path sample_world "sample.mp3" sample_fs) _).
  eexists. eval_trace. elem_solve.
Defined.

(** The end-to-end scenario: the transcript file holds one line, the
    progress reaches 100 and the temporary waveform is gone. *)
Example end_to_end :
  let final := run sample_world "sample.mp3" (start sample_fs) in
  fs final !! "sample.txt"
    = Some (Text "utf-8" ("test transcript" +:+ String Re.newline "")) ∧
  fs final !! "sample_temp.wav" = None ∧
  signals (trace final)
    = map Progress full_progress ++ [Finished "Transcription saved to sample.txt"].
Proof. repeat split; reflexivity. Qed.

(** A malformed address: the run stops after progress 75. *)
Example malformed_address :
  signals (trace (run malformed_world "sample.mp3" (start sample_fs)))
  = map Progress [5; 33; 40; 42; 50; 55; 75]%Z
    ++ [Error "Failed to parse output URI."].
Proof. reflexivity. Qed.

(** An extension that only the Unicode lowering brings into the sets is
    supported: the run takes the video branch. *)
Example kelvin_extension :
  supported kelvin_world kelvin_input ∧
  trace (run kelvin_world kelvin_input (start sample_fs))
  = [Progress 5;
     Error "'NoneType' object has no attribute 'write_audiofile'"].
Proof.
  split; [|reflexivity].
  left. refine (bool_decide_unpack _ _). vm_compute. exact I.
Qed.

(** A credential setting that leads to the temporary waveform is found by
    the check of line 159, under whatever name, and is loaded. *)
Example credentials_at_temporary_file :
  let fs0 : gmap string content := {[ "sample.mp3" := Other "ID3" ]} in
  exists_in alias_world fs0 "./sample_temp.wav" = false ∧
  ¬ credential_absent alias_world fs0 "sample.mp3" ∧
  CallCredentials "./sample_temp.wav"
    ∈ trace (run alias_world "sample.mp3" (start fs0)).
Proof.
  cbv zeta. split; [reflexivity|]. split.
  - intros [Hempty | [_ Hnot]]; [discriminate Hempty|].
    apply Hnot. vm_compute. apply list_elem_of_further, list_elem_of_here.
  - eval_trace. elem_solve.
Qed.

(** A job that is done at the deadline, after the last poll of the wait,
    times out. *)
Example job_done_after_last_poll :
  signals (trace (run early_world "sample.mp3" (start sample_fs)))
  = map Progress [5; 33; 40; 42; 50; 55]%Z
    ++ [Error "Operation did not complete within the designated timeout."].
Proof. reflexivity. Qed.

(** * Facts about the settings file *)

Module SettingsFacts.
Import PyStr PyStrFacts Settings.

Lemma contains_app (c : ascii) (a b : string) :
  contains c (a +:+ b) = contains c a || contains c b.
Proof.
  induction a as [|x a IH]; [reflexivity|].
  rewrite append_cons. cbn [contains]. rewrite IH. apply orb_assoc.
Qed.

Lemma universal_newlines_id (s : string) :
  contains CR s = false → universal_newlines s = s.
Proof.
  induction s as [|c s IH]; [reflexivity|]. cbn [contains universal_newlines].
  intros H. apply orb_false_iff in H as [Hc Hs].
  rewrite Ascii.eqb_sym in Hc. rewrite Ascii.eqb_sym, Hc. f_equal. auto.
Qed.

(** A line that ends the text it starts is the first line read. *)
Lemma readlines_line (a rest : string) :
  contains LF a = false →
  readlines (a +:+ String LF rest) = (a +:+ String LF "") :: readlines rest.
Proof.
  induction a as [|c a IH]; intros H.
  - rewrite !append_empty_l. cbn [readlines]. rewrite Ascii.eqb_refl.
    reflexivity.
  - rewrite !append_cons. cbn [contains] in H.
    apply orb_false_iff in H as [Hc Ha].
    cbn [readlines]. rewrite Hc, (IH Ha). reflexivity.
Qed.

Lemma is_ascii_app (a b : string) :
  is_ascii (a +:+ b) = is_ascii a && is_ascii b.
Proof.
  induction a as [|x a IH]; [reflexivity|].
  rewrite append_cons. cbn [is_ascii]. rewrite IH. apply andb_assoc.
Qed.

(** A byte of ASCII starts no white space of several bytes. *)
Lemma is_space2_ascii (c1 c2 : ascii) :
  (nat_of_ascii c1 <? 128)%nat = true → is_space2 c1 c2 = false.
Proof.
  intros H. apply Nat.ltb_lt in H. unfold is_space2. cbv zeta.
  destruct (Nat.eqb_spec (nat_of_ascii c1) 194); [lia | reflexivity].
Qed.

Lemma is_space3_ascii (c1 c2 c3 : ascii) :
  (nat_of_ascii c1 <? 128)%nat = true → is_space3 c1 c2 c3 = false.
Proof.
  intros H. apply Nat.ltb_lt in H. unfold is_space3. cbv zeta.
  destruct (Nat.eqb_spec (nat_of_ascii c1) 225); [lia|].
  destruct (Nat.eqb_spec (nat_of_ascii c1) 226); [lia|].
  destruct (Nat.eqb_spec (nat_of_ascii c1) 227); [lia|].
  reflexivity.
Qed.

(** [lstrip] removes the first character while it is white space. *)
Lemma lstrip_unfold (s : string) :
  lstrip s
  = match space_prefix s with
    | Some rest => lstrip rest
    | None => s
    end.
Proof.
  destruct s as [|c1 [|c2 [|c3 s3]]]; cbn [lstrip space_prefix];
    [reflexivity|..];
    (destruct (is_space c1); [reflexivity|]); try reflexivity;
    (destruct (is_space2 c1 c2); [reflexivity|]); try reflexivity;
    destruct (is_space3 c1 c2 c3); reflexivity.
Qed.

Lemma space_prefix_app (p q rest : string) :
  space_prefix p = Some rest → space_prefix (p +:+ q) = Some (rest +:+ q).
Proof.
  destruct p as [|c1 [|c2 [|c3 p3]]]; rewrite ?append_cons, ?append_empty_l;
    cbn [space_prefix]; [discriminate|..];
    (destruct (is_space c1); [intros [= <-]; reflexivity|]);
    try discriminate;
    (destruct (is_space2 c1 c2); [intros [= <-]; reflexivity|]);
    try discriminate;
    (destruct (is_space3 c1 c2 c3); [intros [= <-]; reflexivity|]);
    discriminate.
Qed.

Lemma space_prefix_shorter (s rest : string) :
  space_prefix s = Some rest → (String.length rest < String.length s)%nat.
Proof.
  destruct s as [|c1 [|c2 [|c3 s3]]]; cbn [space_prefix]; [discriminate|..];
    (destruct (is_space c1); [intros [= <-]; cbn; lia|]);
    try discriminate;
    (destruct (is_space2 c1 c2); [intros [= <-]; cbn; lia|]);
    try discriminate;
    (destruct (is_space3 c1 c2 c3); [intros [= <-]; cbn; lia|]);
    discriminate.
Qed.

Lemma space_prefix_contains (c : ascii) (s rest : string) :
  space_prefix s = Some rest → contains c s = false → contains c rest = false.
Proof.
  destruct s as [|c1 [|c2 [|c3 s3]]]; cbn [space_prefix]; [discriminate|..];
    (destruct (is_space c1);
     [intros [= <-] H; cbn [contains] in H;
      apply orb_false_iff in H as [_ H]; exact H|]);
    try discriminate;
    (destruct (is_space2 c1 c2);
     [intros [= <-] H; cbn [contains] in H;
      apply orb_false_iff in H as [_ H];
      apply orb_false_iff in H as [_ H]; exact H|]);
    try discriminate;
    (destruct (is_space3 c1 c2 c3); [|discriminate]).
  intros [= <-] H. cbn [contains] in H.
  apply orb_false_iff in H as [_ H].
  apply orb_false_iff in H as [_ H].
  apply orb_false_iff in H as [_ H]. exact H.
Qed.

(** Induction along the characters [lstrip] removes. *)
Lemma lstrip_ind (P : string → Prop) :
  (∀ s, space_prefix s = None → P s) →
  (∀ s rest, space_prefix s = Some rest → P rest → P s) →
  ∀ s, P s.
Proof.
  intros Hnone Hsome s.
  remember (String.length s) as n eqn:Hn. revert s Hn.
  induction n as [n IH] using lt_wf_ind. intros s ->.
  destruct (space_prefix s) as [rest|] eqn:Hs; [|auto].
  apply (Hsome s rest Hs).
  apply (IH (String.length rest)); [|reflexivity].
  apply space_prefix_shorter, Hs.
Qed.

Lemma lstrip_left_clean (s : string) : left_clean (lstrip s).
Proof.
  induction s as [s Hs | s rest Hs IH] using lstrip_ind;
    rewrite lstrip_unfold, Hs; [exact Hs | exact IH].
Qed.

Lemma lstrip_id (s : string) : left_clean s → lstrip s = s.
Proof. intros Hs. rewrite lstrip_unfold, Hs. reflexivity. Qed.

Lemma lstrip_head (c : ascii) (s : string) :
  is_space c = false → (nat_of_ascii c <? 128)%nat = true →
  lstrip (String c s) = String c s.
Proof.
  intros Hc Ha. apply lstrip_id. unfold left_clean. cbn [space_prefix].
  rewrite Hc. destruct s as [|c2 [|c3 s3]]; [reflexivity|..];
    rewrite (is_space2_ascii _ _ Ha); [reflexivity|].
  rewrite (is_space3_ascii _ _ _ Ha). reflexivity.
Qed.

Lemma contains_lstrip (c : ascii) (s : string) :
  contains c s = false → contains c (lstrip s) = false.
Proof.
  induction s as [s Hs | s rest Hs IH] using lstrip_ind;
    rewrite lstrip_unfold, Hs; [auto|].
  intros H. apply IH. exact (space_prefix_contains c s rest Hs H).
Qed.

Lemma rstrip_cons (c : ascii) (s : string) :
  rstrip (String c s)
  = if one_space (String c (rstrip s)) then "" else String c (rstrip s).
Proof. reflexivity. Qed.

(** What [rstrip] leaves is the text without an end of it. *)
Lemma rstrip_prefix (s : string) : ∃ t, s = rstrip s +:+ t.
Proof.
  induction s as [|c s [t IH]]; [exists ""; reflexivity|].
  rewrite rstrip_cons. destruct (one_space _).
  - eexists. rewrite append_empty_l. reflexivity.
  - exists t. rewrite append_cons. f_equal. exact IH.
Qed.

Lemma rstrip_idem (s : string) : rstrip (rstrip s) = rstrip s.
Proof.
  induction s as [|c s IH]; [reflexivity|]. rewrite rstrip_cons.
  destruct (one_space _) eqn:Hone; [reflexivity|].
  rewrite rstrip_cons, IH, Hone. reflexivity.
Qed.

(** White space at the end of a text is removed with what is before it. *)
Lemma rstrip_app_blank (a b : string) :
  rstrip b = "" → rstrip (a +:+ b) = rstrip a.
Proof.
  intros Hb. induction a as [|c a IH]; [exact Hb|].
  rewrite append_cons, !rstrip_cons, IH. reflexivity.
Qed.

(** ASCII text is kept whole before a text of which [rstrip] leaves
    something: none of its bytes starts a white space character with the
    bytes after it. *)
Lemma rstrip_app_ascii (a b : string) :
  is_ascii a = true → rstrip b ≠ "" → rstrip (a +:+ b) = a +:+ rstrip b.
Proof.
  intros Ha Hb. induction a as [|c a IH]; [reflexivity|].
  cbn [is_ascii] in Ha. apply andb_true_iff in Ha as [Hc Ha].
  rewrite !append_cons, rstrip_cons, (IH Ha).
  destruct (a +:+ rstrip b) as [|x [|y [|z r]]] eqn:Hrest; cbn [one_space].
  - destruct a; [|discriminate Hrest].
    rewrite append_empty_l in Hrest. congruence.
  - rewrite (is_space2_ascii _ _ Hc). reflexivity.
  - rewrite (is_space3_ascii _ _ _ Hc). reflexivity.
  - reflexivity.
Qed.

Lemma contains_rstrip (c : ascii) (s : string) :
  contains c s = false → contains c (rstrip s) = false.
Proof.
  destruct (rstrip_prefix s) as [t Ht]. intros H.
  rewrite Ht, contains_app in H. apply orb_false_iff in H as [H _]. exact H.
Qed.

Lemma rstrip_left_clean (s : string) : left_clean s → left_clean (rstrip s).
Proof.
  unfold left_clean. intros Hs. destruct (rstrip_prefix s) as [t Ht].
  destruct (space_prefix (rstrip s)) as [rest|] eqn:Hr; [|reflexivity].
  rewrite Ht, (space_prefix_app _ t _ Hr) in Hs. discriminate Hs.
Qed.

Lemma strip_left_clean (s : string) : left_clean (strip s).
Proof. apply rstrip_left_clean, lstrip_left_clean. Qed.

Lemma strip_rstrip (s : string) : rstrip (strip s) = strip s.
Proof. apply rstrip_idem. Qed.

Lemma strip_idem (s : string) : strip (strip s) = strip s.
Proof.
  unfold strip at 1. rewrite (lstrip_id _ (strip_left_clean s)).
  apply strip_rstrip.
Qed.

Lemma contains_strip (c : ascii) (s : string) :
  contains c s = false → contains c (strip s) = false.
Proof. intros H. apply contains_rstrip, contains_lstrip, H. Qed.

Lemma startswith_app (prefix s : string) : startswith prefix (prefix +:+ s) = true.
Proof.
  induction prefix as [|c prefix IH]; [reflexivity|].
  rewrite append_cons. cbn [startswith]. rewrite Ascii.eqb_refl. exact IH.
Qed.

(** A line [name=value] and its line feed, stripped: the line feed goes,
    the rest stays, when the value is stripped and the name, which ends
    with the equals sign, is ASCII and starts with no space. *)
Lemma strip_setting_line (name value : string) :
  is_ascii name = true → left_clean name → rstrip name = name → name ≠ "" →
  strip (name +:+ strip value +:+ String LF "") = name +:+ strip value.
Proof.
  intros Hascii Hleft Hright Hne. unfold strip at 1.
  assert (Hline : rstrip (strip value +:+ String LF "") = strip value).
  { rewrite rstrip_app_blank by reflexivity. apply strip_rstrip. }
  rewrite lstrip_id.
  2:{ unfold left_clean in *.
      destruct (space_prefix name) as [rest|] eqn:Hn; [discriminate Hleft|].
      destruct name as [|c1 name]; [congruence|].
      rewrite append_cons. cbn [is_ascii] in Hascii.
      apply andb_true_iff in Hascii as [Hc _].
      cbn [space_prefix] in Hn |- *.
      destruct (is_space c1); [discriminate Hn|].
      destruct (name +:+ _) as [|c2 [|c3 s3]]; [reflexivity|..];
        rewrite (is_space2_ascii _ _ Hc); [reflexivity|].
      rewrite (is_space3_ascii _ _ _ Hc). reflexivity. }
  destruct (strip value) as [|x v] eqn:Hv.
  - rewrite append_empty_l, append_empty_r.
    rewrite rstrip_app_blank by reflexivity. exact Hright.
  - rewrite rstrip_app_ascii by (rewrite ?Hline; congruence).
    rewrite Hline. reflexivity.
Qed.

(** Splitting a line [name=value] at its first equals sign. *)
Lemma split_once_setting (name value : string) :
  contains "=" name = false →
  split_once "=" (name +:+ String "=" value) = (name, value).
Proof.
  intros Hname. unfold split_once.
  rewrite (proj2 (ReFacts.span_not_spec "=" _ name (String "=" value))).
  - reflexivity.
  - split; [reflexivity|]. split; [exact Hname|]. right. eauto.
Qed.

(** What a line does is what it assigns. *)
Lemma load_line_assignment (line : string) (environ : gmap string string) :
  load_line line environ
  = match assignment line with
    | None => Ok environ
    | Some (key, value) => environ_setitem key value environ
    end.
Proof.
  unfold load_line, assignment.
  destruct (negb _ || _); [reflexivity|].
  destruct (contains "=" _); [|reflexivity].
  destruct (split_once "=" _). reflexivity.
Qed.

Lemma environ_setitem_Ok (key value : string) (environ environ' : gmap string string) :
  environ_setitem key value environ = Ok environ' →
  environ' = <[key := value]> environ ∧
  ∀ other, environ_setitem key value other = Ok (<[key := value]> other).
Proof.
  unfold environ_setitem.
  destruct (_ || _); [discriminate|].
  destruct (contains "=" key); [discriminate|].
  destruct (negb _); [discriminate|].
  intros [= <-]. auto.
Qed.

(** The lookups of the environment the loop leaves. *)
Lemma load_lines_lookup (lines : list string) (environ environ' : gmap string string)
    (key : string) :
  load_lines lines environ = (environ', Ok tt) →
  environ' !! key
  = match last_assigned key lines with
    | Some value => Some value
    | None => environ !! key
    end.
Proof.
  revert environ. induction lines as [|line rest IH]; intros environ.
  - cbn. intros [= <-]. reflexivity.
  - cbn [load_lines last_assigned]. rewrite load_line_assignment.
    destruct (assignment line) as [[k v]|].
    + destruct (environ_setitem k v environ) as [environ1|e] eqn:Hset;
        [|discriminate].
      apply environ_setitem_Ok in Hset as [-> _].
      intros Hrest. rewrite (IH _ Hrest).
      destruct (last_assigned key rest); [reflexivity|].
      destruct (String.eqb_spec k key) as [->|Hne].
      * apply lookup_insert_eq.
      * apply lookup_insert_ne, Hne.
    + intros Hrest. rewrite (IH _ Hrest).
      destruct (last_assigned key rest); reflexivity.
Qed.

(** Whether the loop completes does not depend on the environment it
    starts from. *)
Lemma load_lines_completes (lines : list string)
    (environ environ' other : gmap string string) :
  load_lines lines environ = (environ', Ok tt) →
  ∃ other', load_lines lines other = (other', Ok tt).
Proof.
  revert environ other. induction lines as [|line rest IH]; intros environ other.
  - cbn. eauto.
  - cbn [load_lines]. rewrite !load_line_assignment.
    destruct (assignment line) as [[k v]|].
    + destruct (environ_setitem k v environ) as [environ1|e] eqn:Hset;
        [|discriminate].
      apply environ_setitem_Ok in Hset as [-> Hany]. rewrite Hany.
      apply IH.
    + apply IH.
Qed.

Lemma load_lines_idempotent (lines : list string)
    (environ environ' : gmap string string) :
  load_lines lines environ = (environ', Ok tt) →
  load_lines lines environ' = (environ', Ok tt).
Proof.
  intros Hload.
  destruct (load_lines_completes _ _ _ environ' Hload) as [again Hagain].
  rewrite Hagain. f_equal. apply map_eq. intros key.
  rewrite (load_lines_lookup _ _ _ key Hagain).
  rewrite (load_lines_lookup _ _ _ key Hload).
  destruct (last_assigned key lines); reflexivity.
Qed.

End SettingsFacts.

Module SettingsRoundTrip.
Import PyStr PyStrFacts Settings SettingsFacts.

Lemma plain_names :
  plain_name "GOOGLE_APPLICATION_CREDENTIALS" ∧
  plain_name "GCS_INPUT_BUCKET" ∧ plain_name "GCS_OUTPUT_BUCKET".
Proof. repeat split; (reflexivity || discriminate). Qed.

Lemma setting_line_shape (name value rest : string) :
  (name +:+ String "=" (strip value +:+ String LF "")) +:+ rest
  = ((name +:+ "=") +:+ strip value) +:+ String LF rest.
Proof.
  rewrite !append_assoc. f_equal. rewrite append_cons, append_assoc.
  reflexivity.
Qed.

Lemma strip_plain_line (name value : string) :
  plain_name name →
  strip (name +:+ String "=" (strip value +:+ String LF ""))
  = name +:+ String "=" (strip value).
Proof.
  intros (Hascii & Hstrip & Hne & _).
  change (name +:+ String "=" (strip value +:+ String LF ""))
    with (name +:+ ("=" +:+ (strip value +:+ String LF ""))).
  rewrite <- append_assoc.
  rewrite strip_setting_line.
  - rewrite append_assoc. reflexivity.
  - rewrite is_ascii_app, Hascii. reflexivity.
  - pose proof (strip_left_clean name) as Hl. rewrite Hstrip in Hl.
    unfold left_clean in *.
    destruct (space_prefix (name +:+ "=")) as [rest|] eqn:Hn; [|reflexivity].
    destruct name as [|c1 name]; [congruence|].
    cbn [is_ascii] in Hascii. apply andb_true_iff in Hascii as [Hc _].
    rewrite append_cons in Hn. cbn [space_prefix] in Hl, Hn.
    destruct (is_space c1); [discriminate Hl|].
    destruct (name +:+ "=") as [|c2 [|c3 s3]]; [discriminate Hn|..];
      rewrite (is_space2_ascii _ _ Hc) in Hn; [discriminate Hn|].
    rewrite (is_space3_ascii _ _ _ Hc) in Hn. discriminate Hn.
  - rewrite rstrip_app_ascii by (exact Hascii || discriminate). reflexivity.
  - destruct name; [congruence|discriminate].
Qed.

(** [load_env] on a line that [save_settings] wrote. *)
Lemma load_line_setting (name value : string) (environ : gmap string string) :
  plain_name name → contains NUL (strip value) = false →
  load_line (name +:+ String "=" (strip value +:+ String LF "")) environ
  = Ok (<[name := strip value]> environ).
Proof.
  intros Hname Hnul. unfold load_line. rewrite (strip_plain_line _ _ Hname).
  destruct Hname as (_ & Hstrip & Hne & Hhash & Heq & Hnul' & _).
  destruct name as [|c name]; [congruence|].
  rewrite append_cons. cbn [truthy negb orb].
  cbn [startswith] in Hhash |- *.
  destruct (Ascii.eqb "#" c); [discriminate Hhash|]. cbn [andb].
  rewrite <- append_cons.
  rewrite contains_app. cbn [contains]. rewrite Ascii.eqb_refl, orb_true_r.
  rewrite (split_once_setting _ _ Heq). rewrite Hstrip, strip_idem.
  unfold environ_setitem. rewrite Hnul', Hnul, Heq. reflexivity.
Qed.

Lemma settings_lines (creds_text input_text output_text : string) :
  single_line creds_text → single_line input_text → single_line output_text →
  readlines (universal_newlines
               (settings_content creds_text input_text output_text))
  = [ "GOOGLE_APPLICATION_CREDENTIALS"
        +:+ String "=" (strip creds_text +:+ String LF "");
      "GCS_INPUT_BUCKET" +:+ String "=" (strip input_text +:+ String LF "");
      "GCS_OUTPUT_BUCKET" +:+ String "=" (strip output_text +:+ String LF "") ].
Proof.
  intros (Hc1 & Hc2 & _) (Hi1 & Hi2 & _) (Ho1 & Ho2 & _).
  apply (contains_strip LF) in Hc1, Hi1, Ho1.
  apply (contains_strip CR) in Hc2, Hi2, Ho2.
  unfold settings_content. cbv zeta.
  rewrite universal_newlines_id.
  2:{ rewrite !contains_app, Hc2, Hi2, Ho2. reflexivity. }
  change ("GOOGLE_APPLICATION_CREDENTIALS=" +:+ strip creds_text +:+ String LF "")
    with ("GOOGLE_APPLICATION_CREDENTIALS"
            +:+ String "=" (strip creds_text +:+ String LF "")).
  change ("GCS_INPUT_BUCKET=" +:+ strip input_text +:+ String LF "")
    with ("GCS_INPUT_BUCKET" +:+ String "=" (strip input_text +:+ String LF "")).
  change ("GCS_OUTPUT_BUCKET=" +:+ strip output_text +:+ String LF "")
    with ("GCS_OUTPUT_BUCKET" +:+ String "=" (strip output_text +:+ String LF "")).
  rewrite setting_line_shape, readlines_line
    by (rewrite contains_app, Hc1; reflexivity).
  rewrite setting_line_shape, readlines_line
    by (rewrite contains_app, Hi1; reflexivity).
  rewrite <- (append_empty_r ("GCS_OUTPUT_BUCKET" +:+ _)).
  rewrite setting_line_shape, readlines_line
    by (rewrite contains_app, Ho1; reflexivity).
  cbn [readlines]. rewrite !append_assoc. reflexivity.
Qed.

Lemma dialog_line_creds (value : string) (v : DialogValues) :
  dialog_line ("GOOGLE_APPLICATION_CREDENTIALS"
                 +:+ String "=" (strip value +:+ String LF "")) v
  = {| creds_value := strip value;
       input_bucket_value := input_bucket_value v;
       output_bucket_value := output_bucket_value v |}.
Proof.
  unfold dialog_line. rewrite (strip_plain_line _ _ (proj1 plain_names)).
  change (startswith "GOOGLE_APPLICATION_CREDENTIALS="
            ("GOOGLE_APPLICATION_CREDENTIALS" +:+ String "=" (strip value)))
    with (startswith "GOOGLE_APPLICATION_CREDENTIALS="
            ("GOOGLE_APPLICATION_CREDENTIALS=" +:+ strip value)).
  rewrite startswith_app, split_once_setting by reflexivity.
  rewrite strip_idem. reflexivity.
Qed.

Lemma dialog_line_input (value : string) (v : DialogValues) :
  dialog_line ("GCS_INPUT_BUCKET" +:+ String "=" (strip value +:+ String LF "")) v
  = {| creds_value := creds_value v;
       input_bucket_value := strip value;
       output_bucket_value := output_bucket_value v |}.
Proof.
  unfold dialog_line.
  rewrite (strip_plain_line _ _ (proj1 (proj2 plain_names))).
  change (startswith "GOOGLE_APPLICATION_CREDENTIALS="
            ("GCS_INPUT_BUCKET" +:+ String "=" (strip value))) with false.
  change (startswith "GCS_INPUT_BUCKET="
            ("GCS_INPUT_BUCKET" +:+ String "=" (strip value)))
    with (startswith "GCS_INPUT_BUCKET=" ("GCS_INPUT_BUCKET=" +:+ strip value)).
  rewrite startswith_app, split_once_setting by reflexivity.
  rewrite strip_idem. reflexivity.
Qed.

Lemma dialog_line_output (value : string) (v : DialogValues) :
  dialog_line ("GCS_OUTPUT_BUCKET" +:+ String "=" (strip value +:+ String LF "")) v
  = {| creds_value := creds_value v;
       input_bucket_value := input_bucket_value v;
       output_bucket_value := strip value |}.
Proof.
  unfold dialog_line.
  rewrite (strip_plain_line _ _ (proj2 (proj2 plain_names))).
  change (startswith "GOOGLE_APPLICATION_CREDENTIALS="
            ("GCS_OUTPUT_BUCKET" +:+ String "=" (strip value))) with false.
  change (startswith "GCS_INPUT_BUCKET="
            ("GCS_OUTPUT_BUCKET" +:+ String "=" (strip value))) with false.
  change (startswith "GCS_OUTPUT_BUCKET="
            ("GCS_OUTPUT_BUCKET" +:+ String "=" (strip value)))
    with (startswith "GCS_OUTPUT_BUCKET=" ("GCS_OUTPUT_BUCKET=" +:+ strip value)).
  rewrite startswith_app, split_once_setting by reflexivity.
  rewrite strip_idem. reflexivity.
Qed.

Lemma load_lines_ignored (before after : list string) (line : string)
    (environ : gmap string string) :
  assignment line = None →
  load_lines (before ++ line :: after) environ
  = load_lines (before ++ after) environ.
Proof.
  intros Hline. revert environ.
  induction before as [|first before IH]; intros environ.
  - cbn [app load_lines]. rewrite load_line_assignment, Hline. reflexivity.
  - cbn [app load_lines]. destruct (load_line first environ); [apply IH|].
    reflexivity.
Qed.

(** The white space outside ASCII is stripped too. *)
Example strip_no_break_space :
  strip (nbsp +:+ "1" +:+ nbsp) = "1" ∧
  os_environ
    (fst (load_env {| env_txt := Some (Readable ("A=" +:+ nbsp +:+ "1" +:+ nbsp));
                      os_environ := ∅ |})) !! "A" = Some "1".
Proof. split; reflexivity. Qed.

(** A file that cannot be decoded: [load_env] raises, whatever lines the
    reader yielded before. *)
Example load_env_unreadable (lines : list string) (e : exn)
    (environ : gmap string string) :
  ∃ e', snd (load_env {| env_txt := Some (Unreadable lines e);
                         os_environ := environ |}) = Raise e'.
Proof.
  unfold load_env. cbn [env_txt os_environ].
  destruct (load_lines lines environ) as [environ' [[]|e']]; eexists; reflexivity.
Qed.

End SettingsRoundTrip.

(** * More of the program: the settings *)

Section SettingsProperties.
Import PyStr Settings SettingsFacts SettingsRoundTrip.

(** X1.  When [load_env] completes, env.txt is as it was, and every
    variable holds the value of the last line of env.txt that assigns it,
    or, when no line does, the value it had before.  The lines are those of
    the text the file decodes to: [load_env] does not complete on a file
    that cannot be read. *)
Theorem X1_load_env_last_assignment (p p' : Process) (key : string) :
  load_env p = (p', Ok tt) →
  env_txt p' = env_txt p ∧
  (∀ lines e, env_txt p ≠ Some (Unreadable lines e)) ∧
  os_environ p' !! key
  = match env_txt p with
    | Some (Readable text) =>
        match last_assigned key (readlines (universal_newlines text)) with
        | Some value => Some value
        | None => os_environ p !! key
        end
    | _ => os_environ p !! key
    end.
Proof.
  unfold load_env. destruct (env_txt p) as [[text|lines e]|] eqn:Hfile.
  - destruct (load_lines _ _) as [environ outcome] eqn:Hload.
    intros [= <- ->]. cbn [env_txt os_environ].
    split; [reflexivity|]. split; [discriminate|].
    apply (load_lines_lookup _ _ _ key Hload).
  - destruct (load_lines _ _) as [environ [[]|e']]; discriminate.
  - intros [= <-]. rewrite Hfile. split; [reflexivity|].
    split; [discriminate | reflexivity].
Qed.

(** X2.  Loading the settings a second time changes nothing: after a
    [load_env] that completes, another [load_env] completes and leaves the
    same process. *)
Theorem X2_load_env_idempotent (p p' : Process) :
  load_env p = (p', Ok tt) → load_env p' = (p', Ok tt).
Proof.
  unfold load_env. destruct (env_txt p) as [[text|lines e]|] eqn:Hfile.
  - destruct (load_lines _ _) as [environ outcome] eqn:Hload.
    intros [= <- ->]. cbn [env_txt os_environ].
    rewrite (load_lines_idempotent _ _ _ Hload). reflexivity.
  - destruct (load_lines _ _) as [environ [[]|e']]; discriminate.
  - intros [= <-]. rewrite Hfile. reflexivity.
Qed.

(** X3.  A line of env.txt that is blank, or whose first character after
    the leading spaces is the comment mark, or that has no equals sign, has
    no effect: the loop of [load_env] does with it what it does without
    it. *)
Theorem X3_load_env_ignored_line (before after : list string) (line : string)
    (environ : gmap string string) :
  strip line = "" ∨ startswith "#" (strip line) = true
  ∨ contains "=" (strip line) = false →
  load_lines (before ++ line :: after) environ
  = load_lines (before ++ after) environ.
Proof.
  intros Hline. apply load_lines_ignored. unfold assignment.
  destruct Hline as [-> | [-> | Hno]].
  - reflexivity.
  - rewrite orb_true_r. reflexivity.
  - destruct (negb _ || _); [reflexivity|]. rewrite Hno. reflexivity.
Qed.

(** X4.  What the settings dialog saves is what the process then has in
    its environment: for three texts without line break or null character,
    when env.txt is written, [save_settings] completes, env.txt reads as
    the three settings, and the three variables are at the stripped texts
    and every other variable as it was. *)
Theorem X4_save_settings_environment
    (creds_text input_text output_text : string) (p : Process) :
  single_line creds_text → single_line input_text → single_line output_text →
  save_settings Saved creds_text input_text output_text p
  = ({| env_txt :=
          Some (Readable (settings_content creds_text input_text output_text));
        os_environ :=
          saved_environ creds_text input_text output_text (os_environ p) |},
     Ok "Environment settings saved.").
Proof.
  intros Hc Hi Ho.
  unfold save_settings, save_env, load_env. cbn [env_txt os_environ].
  rewrite (settings_lines _ _ _ Hc Hi Ho).
  destruct plain_names as (Hn1 & Hn2 & Hn3).
  destruct Hc as (_ & _ & Hc), Hi as (_ & _ & Hi), Ho as (_ & _ & Ho).
  apply (contains_strip NUL) in Hc, Hi, Ho.
  cbn [load_lines].
  rewrite (load_line_setting _ _ _ Hn1 Hc).
  rewrite (load_line_setting _ _ _ Hn2 Hi).
  rewrite (load_line_setting _ _ _ Hn3 Ho).
  reflexivity.
Qed.

(** X5.  What the settings dialog saves is what it shows when it is opened
    again: for three texts without line break or null character, the dialog
    reads back from the saved env.txt the three stripped texts. *)
Theorem X5_save_settings_dialog
    (creds_text input_text output_text : string) :
  single_line creds_text → single_line input_text → single_line output_text →
  dialog_init
    (Some (Readable (settings_content creds_text input_text output_text)))
  = Ok {| creds_value := strip creds_text;
          input_bucket_value := strip input_text;
          output_bucket_value := strip output_text |}.
Proof.
  intros Hc Hi Ho. unfold dialog_init.
  rewrite (settings_lines _ _ _ Hc Hi Ho). cbn [fold_left].
  rewrite dialog_line_creds, dialog_line_input, dialog_line_output.
  reflexivity.
Qed.

End SettingsProperties.

Lemma X1_load_env_last_assignment_witness :
  Settings.os_environ
    (fst (Settings.load_env
            {| Settings.env_txt := Some (Settings.Readable "A=1");
               Settings.os_environ := {[ "B" := "2" ]} |}))
  !! "A" = Some "1".
Proof.
  refine (proj2 (proj2 (X1_load_env_last_assignment
                   {| Settings.env_txt := Some (Settings.Readable "A=1");
                      Settings.os_environ := {[ "B" := "2" ]} |}
                   _ "A" _))).
  reflexivity.
Defined.

Lemma X2_load_env_idempotent_witness :
  Settings.load_env
    {| Settings.env_txt := Some (Settings.Readable "A=1");
       Settings.os_environ := {[ "A" := "1"; "B" := "2" ]} |}
  = ({| Settings.env_txt := Some (Settings.Readable "A=1");
        Settings.os_environ := {[ "A" := "1"; "B" := "2" ]} |},
     Ok tt).
Proof.
  apply (X2_load_env_idempotent
           {| Settings.env_txt := Some (Settings.Readable "A=1");
              Settings.os_environ := {[ "B" := "2" ]} |}).
  reflexivity.
Defined.

Lemma X3_load_env_ignored_line_witness :
  Settings.load_lines (["A=1"] ++ "# B=2" :: ["C=3"]) ∅
  = Settings.load_lines (["A=1"] ++ ["C=3"]) ∅.
Proof.
  apply X3_load_env_ignored_line. right. left. reflexivity.
Defined.

Lemma X4_save_settings_environment_witness :
  Settings.save_settings Settings.Saved (nbsp +:+ "key.json ") "in" ""
    {| Settings.env_txt := None; Settings.os_environ := ∅ |}
  = ({| Settings.env_txt :=
          Some (Settings.Readable
                  (Settings.settings_content (nbsp +:+ "key.json ") "in" ""));
        Settings.os_environ :=
          Settings.saved_environ (nbsp +:+ "key.json ") "in" "" ∅ |},
     Ok "Environment settings saved.").
Proof.
  apply X4_save_settings_environment; repeat split; reflexivity.
Defined.

Lemma X5_save_settings_dialog_witness :
  Settings.dialog_init
    (Some (Settings.Readable
             (Settings.settings_content (nbsp +:+ "key.json ") "in" "")))
  = Ok {| Settings.creds_value := "key.json";
          Settings.input_bucket_value := "in";
          Settings.output_bucket_value := "" |}.
Proof.
  apply (X5_save_settings_dialog (nbsp +:+ "key.json ") "in" "");
    repeat split; reflexivity.
Defined.

(** * More of the program: the run *)

(** The credentials a run loads are at the path the environment names. *)
Lemma credentials_path_from_environ (w : World) (input_file : string)
    (fs0 : gmap string content) (path : string) :
  CallCredentials path ∈ trace (run w input_file (start fs0)) →
  environ w !! "GOOGLE_APPLICATION_CREDENTIALS" = Some path.
Proof.
  intros Hin.
  run_paths w input_file fs0.
  all: elem_inv Hin.
  all: injection Hin as Hpath; subst path; reflexivity.
Qed.

(** The credential setting after [save_settings] has written env.txt. *)
Lemma saved_credentials (creds_text input_text output_text : string)
    (p p' : Settings.Process) (outcome : Exc string) :
  Settings.single_line creds_text → Settings.single_line input_text →
  Settings.single_line output_text →
  Settings.save_settings Settings.Saved creds_text input_text output_text p
  = (p', outcome) →
  outcome = Ok "Environment settings saved." ∧
  Settings.os_environ p' !! "GOOGLE_APPLICATION_CREDENTIALS"
  = Some (Settings.strip creds_text).
Proof.
  intros Hc Hi Ho.
  unfold Settings.save_settings, Settings.save_env, Settings.load_env.
  cbn [Settings.env_txt Settings.os_environ].
  rewrite (SettingsRoundTrip.settings_lines _ _ _ Hc Hi Ho).
  destruct SettingsRoundTrip.plain_names as (Hn1 & Hn2 & Hn3).
  destruct Hc as (_ & _ & Hc), Hi as (_ & _ & Hi), Ho as (_ & _ & Ho).
  apply (SettingsFacts.contains_strip Settings.NUL) in Hc, Hi, Ho.
  cbn [Settings.load_lines].
  rewrite (SettingsRoundTrip.load_line_setting _ _ _ Hn1 Hc).
  rewrite (SettingsRoundTrip.load_line_setting _ _ _ Hn2 Hi).
  rewrite (SettingsRoundTrip.load_line_setting _ _ _ Hn3 Ho).
  intros [= <- <-]. split; [reflexivity|]. cbn [Settings.os_environ].
  rewrite !lookup_insert_ne, lookup_insert_eq by discriminate. reflexivity.
Qed.

(** X6.  The credential path saved in the settings dialog is the one the
    pipeline uses: when [save_settings] has written env.txt for three texts
    without line break or null character, it shows its confirmation, and in
    a world whose environment is the one it left, every credential file a
    run loads is at the stripped text of the dialog. *)
Theorem X6_saved_credentials_reach_run (w : World) (input_file : string)
    (fs0 : gmap string content)
    (creds_text input_text output_text : string)
    (p p' : Settings.Process) (outcome : Exc string) (path : string) :
  Settings.single_line creds_text → Settings.single_line input_text →
  Settings.single_line output_text →
  Settings.save_settings Settings.Saved creds_text input_text output_text p
  = (p', outcome) →
  environ w = Settings.os_environ p' →
  outcome = Ok "Environment settings saved." ∧
  (CallCredentials path ∈ trace (run w input_file (start fs0)) →
   path = Settings.strip creds_text).
Proof.
  intros Hc Hi Ho Hsave Henv.
  destruct (saved_credentials _ _ _ _ _ _ Hc Hi Ho Hsave) as [Hout Hcreds].
  split; [exact Hout|]. intros Hin.
  apply credentials_path_from_environ in Hin.
  rewrite Henv, Hcreds in Hin. congruence.
Qed.

(** X7.  Of the environment a run reads the credential path and nothing
    else: two worlds that differ only in their environments, and agree on
    GOOGLE_APPLICATION_CREDENTIALS, give the same run.  The bucket settings
    have no effect. *)
Theorem X7_run_reads_only_credentials (w : World) (env : gmap string string)
    (input_file : string) (st : State) :
  env !! "GOOGLE_APPLICATION_CREDENTIALS"
  = environ w !! "GOOGLE_APPLICATION_CREDENTIALS" →
  run (with_environ env w) input_file st = run w input_file st.
Proof.
  intros Henv. unfold run, run_body.
  change (environ (with_environ env w)) with env. rewrite Henv.
  reflexivity.
Qed.

(** An input is neither its temporary waveform nor, when its extension is
    supported, its transcript. *)
Lemma input_not_temp (input_file : string) :
  input_file ≠ temp_path input_file.
Proof.
  unfold temp_path.
  destruct (OsPath.splitext input_file) as [base ext] eqn:Hsplit.
  cbn [fst]. rewrite (OsPathFacts.splitext_app _ _ _ Hsplit).
  intros H. apply PyStrFacts.append_inj_l in H.
  destruct (OsPathFacts.splitext_ext _ _ _ Hsplit)
    as [Hempty | (name & Hext & _)]; congruence.
Qed.

Lemma input_not_output (w : World) (input_file : string) :
  supported w input_file → input_file ≠ output_path input_file.
Proof.
  unfold supported, output_path. cbv zeta.
  destruct (OsPath.splitext input_file) as [base ext] eqn:Hsplit.
  cbn [fst snd]. rewrite (OsPathFacts.splitext_app _ _ _ Hsplit).
  intros Hsup H. apply PyStrFacts.append_inj_l in H. subst ext.
  destruct Hsup as [H | H];
    pose proof (bool_decide_eq_true_2 _ H) as Hb;
    vm_compute in Hb; discriminate Hb.
Qed.

(** X8.  A run touches two paths of the file system and no other: the
    temporary waveform path and the output path.  Every other path holds
    after the run what it held before, and so does the input file
    itself. *)
Theorem X8_run_file_system_frame (w : World) (input_file : string)
    (fs0 : gmap string content) :
  let final := run w input_file (start fs0) in
  (∀ path, path ≠ temp_path input_file → path ≠ output_path input_file →
           fs final !! path = fs0 !! path) ∧
  fs final !! input_file = fs0 !! input_file.
Proof.
  cbv zeta.
  pose proof (input_not_temp input_file) as Htemp.
  pose proof (input_not_output w input_file) as Hout.
  revert Htemp Hout. unfold temp_path, output_path, supported. cbv zeta.
  run_paths w input_file fs0.
  all: cbn [fst snd]; intros Htemp Hout.
  all: split; [intros path Hp1 Hp2|].
  all: rewrite ?lookup_delete_ne, ?lookup_insert_ne by congruence.
  all: try reflexivity.
  all: rewrite ?lookup_delete_ne, ?lookup_insert_ne; try reflexivity;
       solve [ congruence | intros Heq; symmetry in Heq; revert Heq; apply Hout; ext_case ].
Qed.

(** X9.  When the job completes and its response has no result for the
    address of the staged waveform, or a result in which no field is set,
    the run fails with the no results error right after progress 75 and
    downloads nothing. *)
Theorem X9_no_results (w : World) (input_file : string)
    (fs0 : gmap string content) (request : BatchRecognizeRequest)
    (operation : Operation) (response : BatchRecognizeResponse) :
  let t := trace (run w input_file (start fs0)) in
  CallBatchRecognize request ∈ t →
  batch_recognize w request = Ok operation →
  operation_result w operation 3600 = Ok response →
  match results response !! staged_uri w input_file with
  | None => True
  | Some file_results => file_result_truthy file_results = false
  end →
  (∃ before,
     t = before ++ [Progress 75; Error "No results found for the input file."]) ∧
  (∀ bucket blob, CallDownload bucket blob ∉ t).
Proof.
  cbv zeta. unfold staged_uri, staged_name, temp_path.
  intros Hin Hop Hres Hnone.
  run_paths w input_file fs0.
  all: elem_inv Hin.
  all: injection Hin as Hreq; subst request.
  all: same_answer Hop.
  all: same_answer Hres.
  all: cbn [fst] in Hnone.
  all: match goal with
       | H : results _ !! _ = _ |- _ => rewrite H in Hnone
       end.
  all: try congruence.
  all: split; [ends_with | intros bucket blob; not_elem].
Qed.

(** X10.  When the job is seen in a terminal state by the last poll of
    the wait, which comes within the 3600 seconds, and that state is a
    failure, the run ends with the error signal that carries the text of the
    failure, right after the wait; it emits no progress 75 and downloads
    nothing. *)
Theorem X10_job_failed (w : World) (input_file : string)
    (fs0 : gmap string content) (request : BatchRecognizeRequest)
    (operation : Operation) (seconds : Z) (failure : exn) :
  let t := trace (run w input_file (start fs0)) in
  CallBatchRecognize request ∈ t →
  batch_recognize w request = Ok operation →
  seconds_to_done operation = Some seconds →
  (seconds <= last_poll w 3600)%Z → (seconds <= 3600)%Z →
  terminal_outcome operation = Raise failure →
  (∃ before,
     t = before ++ [Progress 55; CallResult 3600; Error (exn_str failure)]) ∧
  (Progress 75 ∉ t) ∧
  (∀ bucket blob, CallDownload bucket blob ∉ t).
Proof.
  cbv zeta. intros Hin Hop Hdone Hpoll Hle Hfail.
  assert (Hres : operation_result w operation 3600 = Raise failure).
  { unfold operation_result. rewrite Hdone.
    destruct (Z.leb_spec seconds (Z.min 3600 (last_poll w 3600)));
      [exact Hfail | lia]. }
  run_paths w input_file fs0.
  all: elem_inv Hin.
  all: injection Hin as Hreq; subst request.
  all: same_answer Hop.
  all: same_answer Hres.
  all: split; [ends_with|].
  all: split; [not_elem | intros bucket blob; not_elem].
Qed.

(** X11.  A run that submits a job has, before that and in this order,
    written the waveform of the decoded clip at the temporary path, loaded
    the credentials, and uploaded the temporary file under the staged name;
    the job reads the address of that upload and writes to the results
    address.  It is the only upload and the only job of the run. *)
Theorem X11_job_reads_staged_object (w : World) (input_file : string)
    (fs0 : gmap string content) (request : BatchRecognizeRequest) :
  let t := trace (run w input_file (start fs0)) in
  let temp := temp_path input_file in
  CallBatchRecognize request ∈ t →
  files request = [staged_uri w input_file] ∧
  recognition_output_config request = results_uri w ∧
  (∃ clip path,
     decoded_clip w input_file = Some clip ∧
     [Progress 5;
      CallWriteAudio (clip_source clip) temp 16000 "pcm_s16le"
        ["-preset"; "ultrafast"];
      FileWritten temp (Wave 16000 "pcm_s16le" (nchannels clip));
      Progress 33;
      CallCredentials path;
      CallUpload "speech_to_text_python" (staged_name w input_file) temp;
      Progress 40; Progress 42; Progress 50;
      CallBatchRecognize request] `prefix_of` t) ∧
  (∀ bucket blob filename,
     CallUpload bucket blob filename ∈ t →
     bucket = "speech_to_text_python" ∧ blob = staged_name w input_file
     ∧ filename = temp) ∧
  (∀ other, CallBatchRecognize other ∈ t → other = request).
Proof.
  cbv zeta. unfold staged_uri, results_uri, staged_name, decoded_clip, temp_path.
  cbv zeta. intros Hin.
  run_paths w input_file fs0.
  all: elem_inv Hin.
  all: injection Hin as Hreq; subst request.
  all: cbn [fst snd files recognition_output_config].
  all: split; [reflexivity|].
  all: split; [reflexivity|].
  all: repeat match goal with
       | H : bool_decide _ = _ |- _ => rewrite H; clear H
       | H : VideoFileClip _ _ = _ |- _ => rewrite H; clear H
       | H : AudioFileClip _ _ = _ |- _ => rewrite H; clear H
       end.
  all: split; [eexists _, _; split; [first [eassumption | reflexivity]|];
               eexists; reflexivity|].
  all: split;
    [ intros bucket blob filename Hup; elem_inv Hup;
      injection Hup as -> -> ->; auto
    | intros other Hother; elem_inv Hother; congruence ].
Qed.

(** X12.  When no clip is decoded (the imports fail, the extension is not
    supported, the decoder refuses the file, or the video has no audio
    track) the run emits at most the progress 5 and then an error, and
    leaves the file system as it was. *)
Theorem X12_nothing_decoded (w : World) (input_file : string)
    (fs0 : gmap string content) :
  decoded_clip w input_file = None →
  ∃ msg,
    (trace (run w input_file (start fs0)) = [Progress 5; Error msg] ∨
     trace (run w input_file (start fs0)) = [Error msg]) ∧
    fs (run w input_file (start fs0)) = fs0.
Proof.
  unfold decoded_clip. cbv zeta. intros Hnone.
  run_paths w input_file fs0.
  all: cbn [snd] in Hnone.
  all: repeat match goal with
       | H : bool_decide _ = _ |- _ => rewrite H in Hnone; clear H
       | H : VideoFileClip _ _ = _ |- _ => rewrite H in Hnone; clear H
       | H : AudioFileClip _ _ = _ |- _ => rewrite H in Hnone; clear H
       end.
  all: try congruence.
  all: eexists; split; [first [left; reflexivity | right; reflexivity] | reflexivity].
Qed.

(** X15.  The pattern of line 215 and the addresses of the form
    gs://bucket/object are a round trip: such an address, with a bucket
    that is not empty and has no slash and an object without newline, is
    matched and gives back the bucket and the object; and whatever the
    pattern matches starts with such an address, built from the two groups
    of the match, and goes on, if it goes on, with a newline. *)
Theorem X15_output_address_round_trip (bucket object : string) :
  bucket ≠ "" → PyStr.contains "/" bucket = false →
  PyStr.contains Re.newline object = false →
  Re.match_gs_uri ("gs://" +:+ bucket +:+ "/" +:+ object) = Some (bucket, object) ∧
  (∀ s b o,
     Re.match_gs_uri s = Some (b, o) →
     ∃ rest,
       s = "gs://" +:+ b +:+ "/" +:+ o +:+ rest ∧ stops_at Re.newline rest ∧
       b ≠ "" ∧ PyStr.contains "/" b = false ∧
       PyStr.contains Re.newline o = false).
Proof.
  intros Hne Hslash Hnl. split.
  - apply ReFacts.match_gs_uri_spec. exists "".
    rewrite PyStrFacts.append_empty_r. unfold stops_at.
    repeat split; auto.
  - intros s b o Hmatch.
    apply ReFacts.match_gs_uri_spec in Hmatch
      as (rest & Hs & Hb & Hb' & Ho & Hrest).
    exists rest. repeat split; auto.
Qed.

Lemma X15_output_address_round_trip_witness :
  Re.match_gs_uri ("gs://" +:+ "out" +:+ "/" +:+ "a/b.json")
  = Some ("out", "a/b.json").
Proof.
  apply (X15_output_address_round_trip "out" "a/b.json");
    (discriminate || reflexivity).
Defined.

Lemma X6_saved_credentials_reach_run_witness :
  "key.json" = Settings.strip " key.json ".
Proof.
  pose (saved :=
          Settings.save_settings Settings.Saved " key.json " "in" "out"
            {| Settings.env_txt := None; Settings.os_environ := ∅ |}).
  refine (proj2
    (X6_saved_credentials_reach_run
       (with_environ (Settings.os_environ (fst saved)) sample_world)
       "sample.mp3" sample_fs " key.json " "in" "out"
       {| Settings.env_txt := None; Settings.os_environ := ∅ |}
       (fst saved) (snd saved) "key.json" _ _ _ _ eq_refl) _).
  1-3: repeat split; reflexivity.
  - vm_compute. reflexivity.
  - eval_trace. elem_solve.
Defined.

Lemma X7_run_reads_only_credentials_witness :
  run (with_environ {[ "GOOGLE_APPLICATION_CREDENTIALS" := "key.json" ]}
         sample_world) "sample.mp3" (start sample_fs)
  = run sample_world "sample.mp3" (start sample_fs).
Proof.
  apply X7_run_reads_only_credentials. reflexivity.
Defined.

Lemma X8_run_file_system_frame_witness :
  fs (run sample_world "sample.mp3" (start sample_fs)) !! "key.json"
  = sample_fs !! "key.json".
Proof.
  apply (X8_run_file_system_frame sample_world "sample.mp3" sample_fs);
    discriminate.
Defined.

(** A job for whose input the response holds nothing. *)
Lemma X9_no_results_witness :
  let w := make_world sample_env (Some 120%Z) "" [] in
  ∃ before,
    trace (run w "sample.mp3" (start sample_fs))
    = before ++ [Progress 75; Error "No results found for the input file."].
Proof.
  refine (proj1
    (X9_no_results (make_world sample_env (Some 120%Z) "" []) "sample.mp3"
       sample_fs sample_request (sample_operation (Some 120%Z) "")
       (sample_response "") _ eq_refl eq_refl eq_refl)).
  eval_trace. elem_solve.
Defined.

Lemma X12_nothing_decoded_witness :
  ∃ msg,
    (trace (run sample_world "sample.mp4" (start sample_fs))
       = [Progress 5; Error msg] ∨
     trace (run sample_world "sample.mp4" (start sample_fs)) = [Error msg]) ∧
    fs (run sample_world "sample.mp4" (start sample_fs)) = sample_fs.
Proof.
  apply (X12_nothing_decoded sample_world "sample.mp4" sample_fs).
  vm_compute. reflexivity.
Defined.

Lemma X11_job_reads_staged_object_witness :
  files sample_request = [staged_uri sample_world "sample.mp3"].
Proof.
  refine (proj1
    (X11_job_reads_staged_object sample_world "sample.mp3" sample_fs
       sample_request _)).
  eval_trace. elem_solve.
Defined.

(** * More of the program: the main window *)

(** Every run is a sequence of events without final signal, then one final
    signal: [finished] with the path of the transcript after the full
    progress sequence, or [error]. *)
Lemma run_trace_shape (w : World) (input_file : string)
    (fs0 : gmap string content) :
  ∃ body final,
    trace (run w input_file (start fs0)) = body ++ [final] ∧
    forallb quiet body = true ∧
    progress_values body `prefix_of` full_progress ∧
    ((final = Finished ("Transcription saved to " +:+ output_path input_file)
      ∧ progress_values body = full_progress) ∨
     (∃ msg, final = Error msg)).
Proof.
  unfold output_path.
  run_paths w input_file fs0.
  all: cbn [fst].
  all: lazymatch goal with
       | |- ∃ body final, ?t = _ ∧ _ =>
           exists (List.removelast t); eexists; split; [reflexivity|]
       end.
  all: cbn [List.removelast forallb quiet andb progress_values omap list_omap
            progress_of].
  all: split; [reflexivity|].
  all: split;
    [ unfold full_progress; repeat first [apply prefix_nil | apply prefix_cons]
    | first [ left; split; reflexivity | right; eexists; reflexivity ] ].
Qed.

Module UiFacts.
Import Ui.

Lemma last_cons {A} (x d : A) (l : list A) :
  List.last (x :: l) d = List.last l x.
Proof.
  revert x d. induction l as [|y l IH]; intros x d; [reflexivity|].
  change (List.last (x :: y :: l) d) with (List.last (y :: l) d).
  rewrite (IH y d), (IH y x). reflexivity.
Qed.

Lemma with_progress_id (win : Window) : with_progress (progress_value win) win = win.
Proof. destruct win. reflexivity. Qed.

(** Events without final signal only move the progress bar. *)
Lemma deliver_quiet (body : list Event) (win : Window) :
  forallb quiet body = true →
  Forall (fun n => (0 <= n <= 100)%Z) (progress_values body) →
  deliver body win
  = with_progress (List.last (progress_values body) (progress_value win)) win.
Proof.
  revert win. induction body as [|e body IH]; intros win Hquiet Hrange.
  - cbn. symmetry. apply with_progress_id.
  - cbn [forallb] in Hquiet. apply andb_true_iff in Hquiet as [He Hquiet].
    unfold deliver in *. cbn [fold_left].
    destruct e; try discriminate He; cbn [on_event progress_values omap list_omap progress_of] in *;
      try (apply IH; assumption).
    inversion Hrange as [|? ? Hn Hrest]; subst.
    change (omap progress_of body) with (progress_values body) in *.
    rewrite last_cons. unfold setValue.
    destruct (Z.leb_spec 0 n); [|lia]. destruct (Z.leb_spec n 100); [|lia].
    cbn [andb]. rewrite IH by assumption. reflexivity.
Qed.

Lemma full_progress_range :
  Forall (fun n => (0 <= n <= 100)%Z) full_progress.
Proof. unfold full_progress. repeat constructor; lia. Qed.

Lemma prefix_range (values : list Z) :
  values `prefix_of` full_progress →
  Forall (fun n => (0 <= n <= 100)%Z) values.
Proof.
  intros [rest Hrest]. pose proof full_progress_range as H.
  rewrite Hrest in H. apply Forall_app in H. tauto.
Qed.

Lemma deliver_app (a b : list Event) (win : Window) :
  deliver (a ++ b) win = deliver b (deliver a win).
Proof. apply fold_left_app. Qed.




End UiFacts.

Section WindowProperties.
Import Ui UiFacts.

Lemma start_processing_valid (w : World) (input_line : string)
    (fs0 : gmap string content) (win : Window) :
  Settings.strip input_line ≠ "" →
  exists_in w fs0 (Settings.strip input_line) = true →
  start_processing w input_line fs0 win
  = ({| process_enabled := false;
        progress_value := 0;
        status_text := "Processing...";
        boxes := boxes win;
        worker := Some (Settings.strip input_line) |},
     Some (Settings.strip input_line)).
Proof.
  intros Hne Hex. unfold start_processing. cbv zeta. rewrite Hex.
  destruct (Settings.strip input_line); [congruence|]. reflexivity.
Qed.

(** X13.  A click on the process button with a text that, stripped of its
    white space, is the path of an existing file starts a worker on the
    stripped path; once all the signals of its run have reached the window,
    the button is enabled again, and either the
    run ended with [finished], the bar is at 100, the status is the message
    that names the transcript and one information box was shown with it, or
    the run ended with [error], the bar is back at 0, the status is the
    error text after the word Error and one critical box was shown with the
    error text. *)
Theorem X13_window_after_run (w : World) (input_line : string)
    (fs0 : gmap string content) (win : Window) (delivered : nat) :
  let file_path := Settings.strip input_line in
  let t := trace (run w file_path (start fs0)) in
  let win' := session w input_line fs0 delivered win in
  file_path ≠ "" → exists_in w fs0 file_path = true →
  (List.length t <= delivered)%nat →
  process_enabled win' = true ∧ worker win' = Some file_path ∧
  ((∃ before message,
      t = before ++ [Finished message] ∧
      message = "Transcription saved to " +:+ output_path file_path ∧
      progress_value win' = 100%Z ∧ status_text win' = message ∧
      boxes win' = boxes win ++ [Information "Done" message]) ∨
   (∃ before error_message,
      t = before ++ [Error error_message] ∧
      progress_value win' = 0%Z ∧
      status_text win' = "Error: " +:+ error_message ∧
      boxes win' = boxes win ++ [Critical "Error" error_message])).
Proof.
  cbv zeta. intros Hne Hex Hlen. unfold session.
  rewrite (start_processing_valid _ _ _ _ Hne Hex).
  rewrite firstn_all2 by exact Hlen.
  destruct (run_trace_shape w (Settings.strip input_line) fs0)
    as (body & final & Ht & Hquiet & Hprefix & Hfinal).
  rewrite Ht, deliver_app.
  rewrite (deliver_quiet _ _ Hquiet (prefix_range _ Hprefix)).
  destruct Hfinal as [[-> Hfull] | [msg ->]].
  - rewrite Hfull. cbn. split; [reflexivity|]. split; [reflexivity|].
    left. eexists _, _. repeat split; reflexivity.
  - cbn. split; [reflexivity|]. split; [reflexivity|].
    right. eexists _, _. repeat split; reflexivity.
Qed.


End WindowProperties.

Lemma X13_window_after_run_witness :
  Ui.process_enabled
    (Ui.session sample_world (nbsp +:+ "sample.mp3 ") sample_fs 40
       {| Ui.process_enabled := true; Ui.progress_value := 0;
          Ui.status_text := ""; Ui.boxes := []; Ui.worker := None |}) = true.
Proof.
  refine (proj1 (X13_window_after_run sample_world (nbsp +:+ "sample.mp3 ")
                   sample_fs
                   _ 40 _ _ _)).
  - discriminate.
  - reflexivity.
  - vm_compute. lia.
Defined.


Lemma X10_job_failed_witness :
  ∃ before,
    trace (run failed_job_world "sample.mp3" (start sample_fs))
    = before ++ [Progress 55; CallResult 3600; Error "400 Audio is too long."].
Proof.
  refine (proj1
    (X10_job_failed failed_job_world "sample.mp3" sample_fs sample_request
       failing_operation 30 (Exn OtherException "400 Audio is too long.")
       _ eq_refl eq_refl _ _ eq_refl)).
  - eval_trace. elem_solve.
  - vm_compute. discriminate.
  - lia.
Defined.
